(** * Duotone preset resolution and selector scoping

    A shallow embedding of the pure logic of
    [packages/block-editor/src/hooks/duotone.js]:

    - [getColorsFromDuotonePreset] and [getDuotonePresetFromColors], the two
      resolvers between a symbolic preset reference and a colour list;
    - the selector scoping loop of [BlockDuotoneStyles];
    - the places where [DuotonePanel] and [BlockDuotoneStyles] call the
      resolver;
    - the hook [useMultiOriginPresets], the [onChange] handler of the panel
      and the wrappers [withDuotoneControls] and [withDuotoneStyles].

    JavaScript is dynamically typed and the resolvers are called with whatever
    the settings store and the block attributes hold, so the embedding works on
    a universe of JavaScript values and on completions (normal or thrown). *)

From Stdlib Require Import List String Ascii Bool Arith Lia DecimalString.
Import ListNotations.
Open Scope string_scope.

Set Warnings "-register-all".

(** ** JavaScript values *)

Module JS.

(** Heap identity of an array or an object: [===] on them compares identity,
    not contents. *)
Definition loc := nat.

(** The values the resolvers can meet.  A Number is carried by its canonical
    decimal rendering, the string ToString gives for it ("0", "1.5", "NaN",
    "Infinity"): two Numbers are [===] exactly when the renderings agree and
    are not "NaN", and +0 and -0 share the rendering "0".  A String is a
    sequence of code units below 256.  Arrays are dense.  Function values,
    symbols, getters and proxies are outside the universe. *)
Inductive value : Type :=
| VUndefined
| VNull
| VBool (b : bool)
| VNum (repr : string)
| VStr (s : string)
| VArr (l : loc) (elems : list value)
| VObj (l : loc) (fields : list (string * value)).

(** A completion: the call returns a value or throws.  The only exception the
    modelled code can raise is a TypeError. *)
Inductive completion (A : Type) : Type :=
| Normal (a : A)
| Throw_TypeError.
Arguments Normal {A} a.
Arguments Throw_TypeError {A}.

Definition bind {A B} (c : completion A) (k : A -> completion B) : completion B :=
  match c with
  | Normal a => k a
  | Throw_TypeError => Throw_TypeError
  end.

Notation "x <- c ;; k" := (bind c (fun x => k))
  (at level 61, c at next level, right associativity).

(** ToBoolean. *)
Definition truthy (v : value) : bool :=
  match v with
  | VUndefined | VNull => false
  | VBool b => b
  | VNum r => negb (String.eqb r "0") && negb (String.eqb r "NaN")
  | VStr s => negb (String.eqb s "")
  | VArr _ _ | VObj _ _ => true
  end.

Definition is_nullish (v : value) : bool :=
  match v with
  | VUndefined | VNull => true
  | _ => false
  end.

(** [Array.isArray]. *)
Definition isArray (v : value) : bool :=
  match v with
  | VArr _ _ => true
  | _ => false
  end.

(** [a === b]. *)
Definition strict_eq (a b : value) : bool :=
  match a, b with
  | VUndefined, VUndefined => true
  | VNull, VNull => true
  | VBool x, VBool y => Bool.eqb x y
  | VNum x, VNum y => String.eqb x y && negb (String.eqb x "NaN")
  | VStr x, VStr y => String.eqb x y
  | VArr l _, VArr l' _ => Nat.eqb l l'
  | VObj l _, VObj l' _ => Nat.eqb l l'
  | _, _ => false
  end.

(** [Array.prototype.join] on strings. *)
Definition join (sep : string) (parts : list string) : string :=
  String.concat sep parts.

(** ToString, as a template literal or [+] with a string applies it.  An
    array renders as its elements joined by commas, with [undefined] and
    [null] elements rendered empty; a plain object as "[object Object]". *)
Fixpoint to_string (v : value) : string :=
  match v with
  | VUndefined => "undefined"
  | VNull => "null"
  | VBool true => "true"
  | VBool false => "false"
  | VNum r => r
  | VStr s => s
  | VArr _ elems =>
      join ","
        (map (fun e => match e with
                       | VUndefined | VNull => ""
                       | _ => to_string e
                       end) elems)
  | VObj _ _ => "[object Object]"
  end.

Fixpoint lookup (name : string) (fields : list (string * value)) : option value :=
  match fields with
  | [] => None
  | (k, v) :: rest => if String.eqb k name then Some v else lookup name rest
  end.

(** [v.name] for the property names the module reads ([slug], [colors],
    [style], [color], [duotone]), none of which is an index or a built-in of
    String, Number, Boolean or Array: reading it off [undefined] or [null]
    throws, off an object gives the field or [undefined], off anything else
    gives [undefined]. *)
Definition get (v : value) (name : string) : completion value :=
  match v with
  | VUndefined | VNull => Throw_TypeError
  | VObj _ fields =>
      Normal (match lookup name fields with Some x => x | None => VUndefined end)
  | _ => Normal VUndefined
  end.

(** [v?.name]. *)
Definition opt_get (v : value) (name : string) : completion value :=
  if is_nullish v then Normal VUndefined else get v name.

(** [arr[index]]: [undefined] past the end. *)
Definition at_index (elems : list value) (i : nat) : value :=
  nth i elems VUndefined.

(** [Array.prototype.find]: the first element on which the callback returns
    a truthy value, [undefined] when there is none; the callback is not run
    past that element. *)
Fixpoint array_find (cb : value -> completion value) (elems : list value)
  : completion value :=
  match elems with
  | [] => Normal VUndefined
  | e :: rest =>
      r <- cb e ;;
      if truthy r then Normal e else array_find cb rest
  end.

(** [Array.prototype.every] from position [i] on: stops at the first falsy
    answer. *)
Fixpoint array_every_from (cb : value -> nat -> completion value)
  (elems : list value) (i : nat) : completion value :=
  match elems with
  | [] => Normal (VBool true)
  | e :: rest =>
      r <- cb e i ;;
      if truthy r then array_every_from cb rest (S i) else Normal (VBool false)
  end.

Definition array_every cb elems := array_every_from cb elems 0.

(** [v.find( cb )]: only arrays have a callable [find] in this universe; on
    anything else the call throws "is not a function". *)
Definition call_find (v : value) (cb : value -> completion value)
  : completion value :=
  match v with
  | VArr _ elems => array_find cb elems
  | _ => Throw_TypeError
  end.

(** [v.every( cb )], likewise. *)
Definition call_every (v : value) (cb : value -> nat -> completion value)
  : completion value :=
  match v with
  | VArr _ elems => array_every cb elems
  | _ => Throw_TypeError
  end.

(** *** Strings *)

(** WhiteSpace and LineTerminator code units below 256: TAB, LF, VT, FF, CR,
    SP and NBSP. *)
Definition is_white_space (c : ascii) : bool :=
  let n := nat_of_ascii c in
  existsb (Nat.eqb n) [9; 10; 11; 12; 13; 32; 160].

Fixpoint trimStart (s : string) : string :=
  match s with
  | EmptyString => EmptyString
  | String c rest => if is_white_space c then trimStart rest else s
  end.

Fixpoint trimEnd (s : string) : string :=
  match s with
  | EmptyString => EmptyString
  | String c rest =>
      let r := trimEnd rest in
      if is_white_space c && String.eqb r "" then EmptyString else String c r
  end.

(** [String.prototype.trim]. *)
Definition trim (s : string) : string := trimEnd (trimStart s).

(** [s.split( sep )] for a separator of one code unit: never empty, and the
    empty string splits into one empty piece. *)
Fixpoint split (sep : ascii) (s : string) : list string :=
  match s with
  | EmptyString => [EmptyString]
  | String c rest =>
      if Ascii.eqb c sep then EmptyString :: split sep rest
      else match split sep rest with
           | [] => [String c EmptyString]
           | piece :: pieces => String c piece :: pieces
           end
  end.

(** Truthiness of a string. *)
Definition nonempty (s : string) : bool := negb (String.eqb s "").

End JS.

(** ** The module [hooks/duotone.js] *)

Module Duotone.
Import JS.

(** The template literal [`var:preset|duotone|${ slug }`]. *)
Definition preset_reference (slug : value) : string :=
  "var:preset|duotone|" ++ to_string slug.

(** [colors[ index ]] in the callback of [getDuotonePresetFromColors]; the
    guard of that function lets only an array reach it. *)
Definition colors_at (colors : value) (i : nat) : value :=
  match colors with
  | VArr _ elems => at_index elems i
  | _ => VUndefined
  end.

(** [export function getColorsFromDuotonePreset( duotone, duotonePalette )].
    The callback of [find] destructures its argument, [( { slug } ) => ...],
    which reads [slug] off the entry and throws on [undefined] and [null]. *)
Definition getColorsFromDuotonePreset (duotone duotonePalette : value)
  : completion value :=
  if negb (truthy duotone) then Normal VUndefined
  else
    preset <-
      (if is_nullish duotonePalette then Normal VUndefined
       else call_find duotonePalette (fun entry =>
              slug <- get entry "slug" ;;
              Normal (VBool (strict_eq duotone (VStr (preset_reference slug)))))) ;;
    if truthy preset then get preset "colors" else Normal VUndefined.

(** The callback [duotonePreset?.colors?.every( ( val, index ) =>
    val === colors[ index ] )]. *)
Definition colors_callback (colors duotonePreset : value) : completion value :=
  presetColors <- opt_get duotonePreset "colors" ;;
  if is_nullish presetColors then Normal VUndefined
  else call_every presetColors (fun val i =>
         Normal (VBool (strict_eq val (colors_at colors i)))).

(** [export function getDuotonePresetFromColors( colors, duotonePalette )]. *)
Definition getDuotonePresetFromColors (colors duotonePalette : value)
  : completion value :=
  if negb (truthy colors) || negb (isArray colors) then Normal VUndefined
  else
    preset <-
      (if is_nullish duotonePalette then Normal VUndefined
       else call_find duotonePalette (colors_callback colors)) ;;
    if truthy preset then
      slug <- get preset "slug" ;;
      Normal (VStr (preset_reference slug))
    else Normal VUndefined.

(** *** Selector scoping (the loop of [BlockDuotoneStyles]) *)

Definition wrapper : string := ".editor-styles-wrapper ".

(** [selectorsScoped.push( selector )]. *)
Definition push (selectorsScoped : list string) (selector : string)
  : list string :=
  (selectorsScoped ++ [selector])%list.

(** One run of the inner callback.  The callback assigns to [outer], the
    parameter of the enclosing callback, so the trimmed [outer] is what the
    next run starts from: the state is [outer] and [selectorsScoped]. *)
Definition inner_step (st : string * list string) (inner : string)
  : string * list string :=
  let '(outer, selectorsScoped) := st in
  let outer := trim outer in
  let inner := trim inner in
  if nonempty outer && nonempty inner then
    (outer, push selectorsScoped (wrapper ++ outer ++ "" ++ inner))
  else if nonempty outer then
    (outer, push selectorsScoped (wrapper ++ inner))
  else if nonempty inner then
    (outer, push selectorsScoped (wrapper ++ outer))
  else (outer, selectorsScoped).

(** What one (scope, selector) pair adds to an empty [selectorsScoped]. *)
Definition pair_selectors (outer inner : string) : list string :=
  snd (inner_step (outer, []) inner).

(** One run of the outer callback: [selectors.forEach( ... )]. *)
Definition outer_step (selectors : list string) (selectorsScoped : list string)
  (outer : string) : list string :=
  snd (fold_left inner_step selectors (outer, selectorsScoped)).

(** Lines 256 to 276 of the source, as a function of the scope string (in the
    source ['.' + id]) and of [duotoneSupportSelectors]: split both on commas,
    run the two nested [forEach] and join what was pushed. *)
Definition computeScopedDuotoneSelectors (scopeList selectorList : string)
  : string :=
  let scopes := split "," scopeList in
  let selectors := split "," selectorList in
  let selectorsScoped := fold_left (outer_step selectors) scopes [] in
  join "," selectorsScoped.

(** [selectorsGroup] as [BlockDuotoneStyles] computes it from [id]. *)
Definition selectorsGroup (id duotoneSupportSelectors : string) : string :=
  computeScopedDuotoneSelectors ("." ++ id) duotoneSupportSelectors.

(** *** The two components that call the resolver *)

(** A recorded call of [getColorsFromDuotonePreset]. *)
Inductive call : Type :=
| Call_getColorsFromDuotonePreset (duotone duotonePalette : value).

(** A computation that records the resolver calls it makes. *)
Definition traced (A : Type) : Type := (list call * completion A)%type.

Definition tret {A} (a : A) : traced A := ([], Normal a).

Definition tbind {A B} (m : traced A) (k : A -> traced B) : traced B :=
  match m with
  | (cs, Normal a) => let '(cs', r) := k a in ((cs ++ cs')%list, r)
  | (cs, Throw_TypeError) => (cs, Throw_TypeError)
  end.

Definition lift {A} (c : completion A) : traced A := ([], c).

Definition invoke_getColorsFromDuotonePreset (duotone duotonePalette : value)
  : traced value :=
  ([Call_getColorsFromDuotonePreset duotone duotonePalette],
   getColorsFromDuotonePreset duotone duotonePalette).

(** What [InlineDuotone] renders. *)
Inductive inline_duotone : Type :=
| DuotoneUnsetStylesheet (selector : string)
| DuotoneFilterAndStylesheet (id : string) (colors : value) (selector : string).

Definition InlineDuotone (selector id : string) (colors : value) : inline_duotone :=
  if strict_eq colors (VStr "unset") then DuotoneUnsetStylesheet selector
  else DuotoneFilterAndStylesheet id colors selector.

(** [BlockDuotoneStyles( { name, duotoneStyle, id } )], given what its hooks
    return: the palette of [useMultiOriginPresets], the element of
    [useContext] and the selectors of [getBlockCSSSelector].  [None] is the
    [null] it returns without rendering; otherwise the portal's content. *)
Definition BlockDuotoneStyles (duotonePalette element : value)
  (duotoneSupportSelectors : string) (duotoneStyle : value) (id : string)
  : traced (option inline_duotone) :=
  if negb (truthy element) || negb (truthy duotoneStyle) then tret None
  else
    tbind
      (if negb (isArray duotoneStyle)
          && negb (strict_eq duotoneStyle (VStr "unset"))
       then invoke_getColorsFromDuotonePreset duotoneStyle duotonePalette
       else tret duotoneStyle)
      (fun colors =>
         tret (Some (InlineDuotone
                       (selectorsGroup id duotoneSupportSelectors) id colors))).

(** [v?.length === 0]: only an array or a string has a [length]. *)
Definition length_is_zero (v : value) : bool :=
  match v with
  | VArr _ [] => true
  | VStr EmptyString => true
  | _ => false
  end.

(** [DuotonePanel( { attributes, setAttributes } )] up to the [value] it hands
    to [DuotoneControl], given the palette of [useMultiOriginPresets] and the
    flag [disableCustomDuotone].  [None] is the [null] of the early return. *)
Definition DuotonePanel (duotonePalette : value) (disableCustomDuotone : bool)
  (attributes : value) : traced (option value) :=
  tbind (lift (opt_get attributes "style")) (fun style =>
  tbind (lift (color <- opt_get style "color" ;; opt_get color "duotone"))
    (fun duotoneStyle =>
  if length_is_zero duotonePalette && disableCustomDuotone then tret None
  else
    tbind
      (if negb (isArray duotoneStyle)
       then invoke_getColorsFromDuotonePreset duotoneStyle duotonePalette
       else tret duotoneStyle)
      (fun duotonePresetOrColors => tret (Some duotonePresetOrColors)))).

End Duotone.

(** ** Reading the resolvers as searches

    The definitions of this module follow the description of the resolvers,
    not their code: a preset matches when its colour list agrees with the
    input at every index of the preset's list, and the resolver answers with
    the first entry of the palette that matches. *)

Module Reading.
Import JS Duotone.

(** What [v?.name] evaluates to: the field of an object, [undefined] on
    anything else. *)
Definition field (name : string) (v : value) : value :=
  match v with
  | VObj _ fields =>
      match lookup name fields with Some x => x | None => VUndefined end
  | _ => VUndefined
  end.

(** [presetColors] and [colors] hold [===] values at every index of
    [presetColors]; [colors] is read as JavaScript reads it, [undefined] past
    its end, and is not looked at beyond the length of [presetColors]. *)
Definition agrees (presetColors colors : list value) : bool :=
  forallb (fun i => strict_eq (at_index presetColors i) (at_index colors i))
    (seq 0 (List.length presetColors)).

(** The entry is a preset with a colour list that agrees with [colors]. *)
Definition preset_matches (colors : list value) (entry : value) : bool :=
  match field "colors" entry with
  | VArr _ presetColors => agrees presetColors colors
  | _ => false
  end.

(** The first entry of the palette, in order, that matches. *)
Definition first_matching_preset (colors entries : list value) : option value :=
  find (preset_matches colors) entries.

(** The entry's slug renders to the slug of the reference
    ["var:preset|duotone|" ++ slug]. *)
Definition has_slug (slug : string) (entry : value) : bool :=
  String.eqb (to_string (field "slug" entry)) slug.

(** An entry on which the callback of [getDuotonePresetFromColors] cannot
    throw: its [colors], when it has one that is not [undefined] or [null],
    is an array. *)
Definition colors_field_ok (entry : value) : bool :=
  is_nullish (field "colors" entry) || isArray (field "colors" entry).

(** Palettes on which [getDuotonePresetFromColors] cannot throw. *)
Definition palette_safe_for_preset (duotonePalette : value) : bool :=
  match duotonePalette with
  | VUndefined | VNull => true
  | VArr _ entries => forallb colors_field_ok entries
  | _ => false
  end.

(** Palettes on which [getColorsFromDuotonePreset] cannot throw: no entry is
    [undefined] or [null]. *)
Definition palette_safe_for_colors (duotonePalette : value) : bool :=
  match duotonePalette with
  | VUndefined | VNull => true
  | VArr _ entries => forallb (fun entry => negb (is_nullish entry)) entries
  | _ => false
  end.

End Reading.

(** ** Sample data *)

Module Samples.
Import JS.

Definition black_white : list value := [VStr "#000000"; VStr "#ffffff"].
Definition blue_orange : list value := [VStr "#000097"; VStr "#ff4747"].

(** Two presets with the same slug and different colours, as a theme preset
    and a default preset can be. *)
Definition theme_dark : value :=
  VObj 1 [("slug", VStr "dark"); ("colors", VArr 2 black_white)].
Definition default_dark : value :=
  VObj 3 [("slug", VStr "dark"); ("colors", VArr 4 blue_orange)].

(** Two presets with different slugs and equal colours. *)
Definition grayscale : value :=
  VObj 5 [("slug", VStr "grayscale"); ("colors", VArr 6 black_white)].
Definition mono : value :=
  VObj 7 [("slug", VStr "mono"); ("colors", VArr 8 black_white)].

Definition blue : value :=
  VObj 9 [("slug", VStr "blue-orange"); ("colors", VArr 10 blue_orange)].

(** A preset with an empty colour list, one without [colors], and one whose
    [colors] is a string instead of a list. *)
Definition empty_preset : value :=
  VObj 11 [("slug", VStr "none"); ("colors", VArr 12 [])].
Definition no_colors : value := VObj 13 [("slug", VStr "bare")].
Definition string_colors : value :=
  VObj 14 [("slug", VStr "flat"); ("colors", VStr "#000000")].

(** Presets keyed by origin instead of listed. *)
Definition by_origin : value :=
  VObj 15 [("theme", VArr 16 [theme_dark]); ("default", VArr 17 [default_dark])].

(** Block attributes whose duotone style is the sentinel. *)
Definition unset_attributes : value :=
  VObj 20 [("style", VObj 21 [("color", VObj 22 [("duotone", VStr "unset")])])].

(** The container the block list provides. *)
Definition container : value := VObj 30 [].

End Samples.

(** ** The rest of [hooks/duotone.js]

    The hook that merges the preset tiers, the [onChange] handler of
    [DuotonePanel] and the two wrapping components, over the same values. *)

Module Components.
Import JS Duotone.

(** [const EMPTY_ARRAY = [];], one array for the whole module. *)
Definition EMPTY_ARRAY : value := VArr 0 [].

(** [a || b]. *)
Definition or_else (a b : value) : value := if truthy a then a else b.

(** [a ?? b]. *)
Definition nullish_coalesce (a b : value) : value :=
  if is_nullish a then b else a.

(** The one-unit strings a string iterates and indexes into. *)
Definition code_units (s : string) : list value :=
  map (fun c => VStr (String c EmptyString)) (list_ascii_of_string s).

(** [[ ...v ]]: the elements an array spread takes from [v].  Arrays and
    strings are the iterables of this universe; spreading anything else
    throws "is not iterable". *)
Definition spread_elements (v : value) : completion (list value) :=
  match v with
  | VArr _ elems => Normal elems
  | VStr s => Normal (code_units s)
  | _ => Throw_TypeError
  end.

(** The decimal rendering of an array index. *)
Definition index_key (i : nat) : string :=
  NilZero.string_of_uint (Nat.to_uint i).

Definition indexed (elems : list value) : list (string * value) :=
  combine (map index_key (seq 0 (List.length elems))) elems.

(** [{ ...v }]: the own enumerable properties an object spread copies, in
    order.  [undefined], [null], booleans and numbers have none; an array and
    a string have their indices. *)
Definition own_properties (v : value) : list (string * value) :=
  match v with
  | VObj _ fields => fields
  | VArr _ elems => indexed elems
  | VStr s => indexed (code_units s)
  | _ => []
  end.

(** Defining [name] in an object literal after a spread: the value of an
    existing key is replaced where the key stands, a new key goes last. *)
Fixpoint set_field (name : string) (v : value) (fields : list (string * value))
  : list (string * value) :=
  match fields with
  | [] => [(name, v)]
  | (k, x) :: rest =>
      if String.eqb k name then (k, v) :: rest
      else (k, x) :: set_field name v rest
  end.

(** [useMultiOriginPresets( { presetSetting, defaultSetting } )], given the
    settings lookup behind [useSetting] and the location of the array the
    memoised factory builds. *)
Definition useMultiOriginPresets (useSetting : string -> value) (fresh : loc)
  (presetSetting defaultSetting : string) : completion value :=
  let disableDefault := negb (truthy (useSetting defaultSetting)) in
  let userPresets := or_else (useSetting (presetSetting ++ ".custom")) EMPTY_ARRAY in
  let themePresets := or_else (useSetting (presetSetting ++ ".theme")) EMPTY_ARRAY in
  let defaultPresets :=
    or_else (useSetting (presetSetting ++ ".default")) EMPTY_ARRAY in
  user <- spread_elements userPresets ;;
  theme <- spread_elements themePresets ;;
  default <- spread_elements
               (if disableDefault then EMPTY_ARRAY else defaultPresets) ;;
  Normal (VArr fresh (user ++ theme ++ default)%list).

(** The [onChange] handler [DuotonePanel] gives to [DuotoneControl], for the
    [style] and the palette of the render that created it.  The result is
    the object handed to [setAttributes]; the three object literals take the
    locations [next], [next + 1] and [next + 2] in the order they are
    created. *)
Definition onChange (next : loc) (style duotonePalette newDuotone : value)
  : completion value :=
  maybePreset <- getDuotonePresetFromColors newDuotone duotonePalette ;;
  styleColor <- opt_get style "color" ;;
  let color :=
    VObj (S next)
      (set_field "duotone" (nullish_coalesce maybePreset newDuotone)
         (own_properties styleColor)) in
  let newStyle := VObj next (set_field "color" color (own_properties style)) in
  Normal (VObj (S (S next)) [("style", newStyle)]).

(** [DuotonePanel] with its hooks: the two palettes of
    [useMultiOriginPresets] and the flags read with [useSetting], then the
    body modelled by [Duotone.DuotonePanel]. *)
Definition DuotonePanel_hooks (useSetting : string -> value) (fresh : loc)
  (attributes : value) : traced (option value) :=
  tbind (lift (useMultiOriginPresets useSetting fresh
                 "color.duotone" "color.defaultDuotone")) (fun duotonePalette =>
  tbind (lift (useMultiOriginPresets useSetting (S fresh)
                 "color.palette" "color.defaultPalette")) (fun colorPalette =>
  let disableCustomColors := negb (truthy (useSetting "color.custom")) in
  let disableCustomDuotone :=
    negb (truthy (useSetting "color.customDuotone"))
    || (length_is_zero colorPalette && disableCustomColors) in
  DuotonePanel duotonePalette disableCustomDuotone attributes)).

(** [withDuotoneControls]: the panel is rendered for a block that supports
    duotone and is not content locked.  [hasDuotoneSupport] and
    [isContentLocked] are what [hasBlockSupport] and the store selector
    return; both are computed from [props.name] and [props.clientId], before
    anything is rendered.  [<DuotonePanel { ...props } />] hands the panel a
    copy of the props, of which it takes [attributes].  The [BlockEdit] it
    wraps is rendered in every case and is left out. *)
Definition withDuotoneControls (hasDuotoneSupport isContentLocked : value)
  (useSetting : string -> value) (fresh : loc) (props : value)
  : traced (option value) :=
  tbind (lift (get props "name")) (fun name =>
  if truthy hasDuotoneSupport && negb (truthy isContentLocked)
  then
    let attributes :=
      match lookup "attributes" (own_properties props) with
      | Some x => x
      | None => VUndefined
      end in
    DuotonePanel_hooks useSetting fresh attributes
  else tret None).

(** [withDuotoneStyles], as far as the styles go: [duotoneSupport] is what
    [getBlockSupport] returns and [instanceId] what [useInstanceId] returns;
    the palette, the element and the selectors are those of
    [BlockDuotoneStyles].  The class name given to [BlockListBlock] is built
    by a library of its own and is left out. *)
Definition withDuotoneStyles (duotoneSupport instanceId : value)
  (duotonePalette element : value) (duotoneSupportSelectors : string)
  (props : value) : traced (option inline_duotone) :=
  tbind (lift (get props "name")) (fun name =>
  let id := "wp-duotone-" ++ to_string instanceId in
  tbind (lift (attributes <- opt_get props "attributes" ;;
               style <- opt_get attributes "style" ;;
               color <- opt_get style "color" ;;
               opt_get color "duotone")) (fun duotoneStyle =>
  if truthy duotoneSupport && truthy duotoneStyle
  then BlockDuotoneStyles duotonePalette element duotoneSupportSelectors
         duotoneStyle id
  else tret None)).

End Components.

(** ** Shapes of inputs *)

Module Shapes.
Import JS Duotone Reading Components.

(** The value is a string that begins like a preset reference. *)
Definition is_preset_reference (v : value) : bool :=
  match v with
  | VStr s => String.prefix "var:preset|duotone|" s
  | _ => false
  end.

(** The entry is the one a style value refers to. *)
Definition referred_by (duotone entry : value) : bool :=
  strict_eq duotone (VStr (preset_reference (field "slug" entry))).

(** No two entries render the same slug. *)
Fixpoint slugs_distinct (entries : list value) : bool :=
  match entries with
  | [] => true
  | e :: rest =>
      negb (existsb (has_slug (to_string (field "slug" e))) rest)
      && slugs_distinct rest
  end.

(** The property [name] as an object spread of [v] copies it. *)
Definition property (name : string) (v : value) : value :=
  match lookup name (own_properties v) with
  | Some x => x
  | None => VUndefined
  end.

(** The string holds the code unit. *)
Fixpoint contains (c : ascii) (s : string) : bool :=
  match s with
  | EmptyString => false
  | String d rest => Ascii.eqb d c || contains c rest
  end.

(** A tier setting the hook can spread: falsy, an array or a string. *)
Definition tier_ok (v : value) : bool :=
  negb (truthy v) || isArray v || match v with VStr _ => true | _ => false end.

(** The presets a tier setting contributes. *)
Definition tier_elements (v : value) : list value :=
  match or_else v EMPTY_ARRAY with
  | VArr _ elems => elems
  | VStr s => code_units s
  | _ => []
  end.

(** What a pair with a non-empty scope emits. *)
Definition scoped (outer inner : string) : string :=
  if nonempty (trim inner) then wrapper ++ trim outer ++ trim inner
  else wrapper.

End Shapes.

(** ** More sample data *)

Module Settings.
Import JS Samples.

(** A settings store with one custom, one theme and one default duotone
    preset, the theme and the default one sharing a slug. *)
Definition store (path : string) : value :=
  if String.eqb path "color.duotone.custom" then VArr 50 [grayscale]
  else if String.eqb path "color.duotone.theme" then VArr 51 [theme_dark]
  else if String.eqb path "color.duotone.default" then VArr 52 [default_dark; blue]
  else if String.eqb path "color.defaultDuotone" then VBool true
  else if String.eqb path "color.customDuotone" then VBool true
  else if String.eqb path "color.custom" then VBool true
  else VUndefined.

(** The same store with the default presets switched off. *)
Definition store_no_default (path : string) : value :=
  if String.eqb path "color.defaultDuotone" then VBool false else store path.

(** A store with nothing but default duotone presets, switched off. *)
Definition store_bare (path : string) : value :=
  if String.eqb path "color.duotone.default" then VArr 52 [default_dark; blue]
  else VUndefined.

(** A style with a text colour and a gradient beside the duotone. *)
Definition rich_style : value :=
  VObj 60 [("spacing", VStr "4px");
           ("color", VObj 61 [("text", VStr "#111111");
                              ("duotone", VStr "var:preset|duotone|dark")])].

Definition custom_colors : value := VArr 62 [VStr "#123456"; VStr "#abcdef"].

End Settings.

Import JS Duotone Reading.

(** ** Selector scoping *)

Section Scoping.

Lemma trimStart_shape (s : string) :
  trimStart s = "" \/
  exists c rest, trimStart s = String c rest /\ is_white_space c = false.
Proof.
  induction s as [|c rest IH]; simpl.
  - now left.
  - destruct (is_white_space c) eqn:W.
    + exact IH.
    + right. now exists c, rest.
Qed.

Lemma trimEnd_idempotent (s : string) : trimEnd (trimEnd s) = trimEnd s.
Proof.
  induction s as [|c rest IH]; simpl; [reflexivity|].
  destruct (is_white_space c && (trimEnd rest =? ""))%bool eqn:E;
    [reflexivity|].
  simpl. rewrite IH, E. reflexivity.
Qed.

Lemma trimStart_trim (s : string) : trimStart (trim s) = trim s.
Proof.
  unfold trim.
  destruct (trimStart_shape s) as [E | (c & rest & E & W)]; rewrite E.
  - reflexivity.
  - simpl. rewrite W. simpl. now rewrite W.
Qed.

(** Trimming twice changes nothing: the reassigned [outer] of the loop is
    stable after its first trim. *)
Lemma trim_idempotent (s : string) : trim (trim s) = trim s.
Proof.
  unfold trim at 1. rewrite trimStart_trim.
  unfold trim. apply trimEnd_idempotent.
Qed.

Lemma inner_step_acc (outer inner : string) (acc : list string) :
  inner_step (outer, acc) inner
  = (trim outer, (acc ++ pair_selectors outer inner)%list).
Proof.
  unfold pair_selectors, inner_step, push.
  destruct (nonempty (trim outer)), (nonempty (trim inner)); simpl;
    now rewrite ?app_nil_r.
Qed.

Lemma pair_selectors_trim (outer inner : string) :
  pair_selectors (trim outer) inner = pair_selectors outer inner.
Proof.
  unfold pair_selectors, inner_step. now rewrite trim_idempotent.
Qed.

Lemma inner_loop (selectors : list string) :
  forall outer acc,
    snd (fold_left inner_step selectors (outer, acc))
    = (acc ++ flat_map (pair_selectors outer) selectors)%list.
Proof.
  induction selectors as [|inner rest IH]; intros outer acc;
    cbn [fold_left flat_map].
  - cbn. now rewrite app_nil_r.
  - rewrite inner_step_acc, IH, <- app_assoc. f_equal. f_equal.
    apply flat_map_ext. intros i. apply pair_selectors_trim.
Qed.

Lemma outer_loop (selectors scopes : list string) :
  forall acc,
    fold_left (outer_step selectors) scopes acc
    = (acc ++ flat_map
                (fun outer => flat_map (pair_selectors outer) selectors)
                scopes)%list.
Proof.
  induction scopes as [|outer rest IH]; intros acc;
    cbn [fold_left flat_map].
  - now rewrite app_nil_r.
  - rewrite IH. unfold outer_step. rewrite inner_loop.
    now rewrite <- app_assoc.
Qed.

Lemma flat_map_list_prod {A B C} (f : A -> B -> list C) (xs : list A)
  (ys : list B) :
  flat_map (fun p => f (fst p) (snd p)) (list_prod xs ys)
  = flat_map (fun x => flat_map (f x) ys) xs.
Proof.
  induction xs as [|x xs IH]; simpl; [reflexivity|].
  rewrite flat_map_app, IH. f_equal. clear IH.
  induction ys as [|y ys IHy]; simpl; [reflexivity|].
  now rewrite IHy.
Qed.

(** What the code pushes for a pair with exactly one non-empty part: the
    wrapper prefix followed by the part that is empty, that is, the bare
    prefix. *)
Lemma pair_selectors_one_sided (outer inner : string) :
  xorb (nonempty (trim outer)) (nonempty (trim inner)) = true ->
  pair_selectors outer inner = [wrapper].
Proof.
  unfold pair_selectors, inner_step, push, nonempty.
  destruct (trim outer) as [|a o], (trim inner) as [|b i]; simpl;
    intros H; try discriminate H; reflexivity.
Qed.

(** A pair with two empty parts pushes nothing. *)
Lemma pair_selectors_both_empty (outer inner : string) :
  nonempty (trim outer) = false -> nonempty (trim inner) = false ->
  pair_selectors outer inner = [].
Proof.
  unfold pair_selectors, inner_step. intros -> ->. reflexivity.
Qed.

(** A pair with two non-empty parts pushes the prefix, then the two trimmed
    parts with no space between them. *)
Lemma pair_selectors_both (outer inner : string) :
  nonempty (trim outer) = true -> nonempty (trim inner) = true ->
  pair_selectors outer inner = [wrapper ++ trim outer ++ trim inner].
Proof.
  unfold pair_selectors, inner_step. intros -> ->. reflexivity.
Qed.

End Scoping.

(** C5.  [computeScopedDuotoneSelectors] splits the scope string and the
    selector list on commas, runs over the cartesian product of the pieces
    with the scope as the outer and the selector as the inner loop, and joins
    with commas, in that order, what each pair pushed; on
    ".wp-duotone-1,.wp-duotone-2" and "a,b" this gives the four compound
    selectors 1a, 1b, 2a, 2b under the wrapper prefix. *)
Theorem computeScopedDuotoneSelectors_scope_major :
  (forall scopeList selectorList,
      computeScopedDuotoneSelectors scopeList selectorList
      = join ","
          (flat_map (fun p => pair_selectors (fst p) (snd p))
             (list_prod (split "," scopeList) (split "," selectorList))))
  /\ computeScopedDuotoneSelectors ".wp-duotone-1,.wp-duotone-2" "a,b"
     = ".editor-styles-wrapper .wp-duotone-1a,.editor-styles-wrapper .wp-duotone-1b,.editor-styles-wrapper .wp-duotone-2a,.editor-styles-wrapper .wp-duotone-2b".
Proof.
  split; [|reflexivity].
  intros scopeList selectorList. unfold computeScopedDuotoneSelectors.
  rewrite outer_loop. simpl. now rewrite flat_map_list_prod.
Qed.

(** C6.  One scope ".wp-duotone-1" and one selector "filter.duotone-sel" give
    the wrapper prefix, then scope and selector with no space between. *)
Theorem computeScopedDuotoneSelectors_single :
  computeScopedDuotoneSelectors ".wp-duotone-1" "filter.duotone-sel"
  = ".editor-styles-wrapper .wp-duotone-1filter.duotone-sel".
Proof. reflexivity. Qed.

(** C2.  On the scope ".wp-duotone-1" and the selector list "img," the second
    pair has a non-empty scope and an empty selector; the code emits for it
    the bare wrapper prefix, not the prefix followed by the scope. *)
Theorem computeScopedDuotoneSelectors_one_sided_pair :
  split "," "img," = ["img"; ""]
  /\ computeScopedDuotoneSelectors ".wp-duotone-1" "img,"
     = ".editor-styles-wrapper .wp-duotone-1img,.editor-styles-wrapper "
  /\ pair_selectors ".wp-duotone-1" "" = [".editor-styles-wrapper "]
  /\ pair_selectors ".wp-duotone-1" ""
     <> [".editor-styles-wrapper " ++ ".wp-duotone-1"].
Proof.
  repeat split; try reflexivity. discriminate.
Qed.

(** ** The resolvers *)

Section Resolvers.

Lemma get_field (v : value) (name : string) :
  is_nullish v = false -> get v name = Normal (field name v).
Proof. destruct v; simpl; intros H; try discriminate H; reflexivity. Qed.

Lemma opt_get_field (v : value) (name : string) :
  opt_get v name = Normal (field name v).
Proof. destruct v; reflexivity. Qed.

Lemma truthy_not_nullish (v : value) : truthy v = true -> is_nullish v = false.
Proof. destruct v; simpl; intros H; try discriminate H; reflexivity. Qed.

Lemma agrees_spec (presetColors colors : list value) :
  agrees presetColors colors = true <->
  forall i, i < List.length presetColors ->
            strict_eq (at_index presetColors i) (at_index colors i) = true.
Proof.
  unfold agrees. rewrite forallb_forall. split.
  - intros H i Hi. apply H, in_seq. lia.
  - intros H i Hi. apply H. apply in_seq in Hi. lia.
Qed.

(** Elements of [colors] past the length of the preset's list play no part. *)
Lemma agrees_extra_trailing (presetColors colors extra : list value) :
  List.length presetColors <= List.length colors ->
  agrees presetColors (colors ++ extra) = agrees presetColors colors.
Proof.
  intros Hlen. apply Bool.eq_true_iff_eq. rewrite !agrees_spec.
  split; intros H i Hi; specialize (H i Hi); unfold at_index in *.
  - now rewrite app_nth1 in H by lia.
  - now rewrite app_nth1 by lia.
Qed.

Lemma forallb_seq_shift (f g : nat -> bool) (n : nat) :
  (forall k, f (S k) = g k) ->
  forallb f (seq 1 n) = forallb g (seq 0 n).
Proof.
  intros Hfg. rewrite <- seq_shift.
  induction (seq 0 n) as [|k ks IH]; simpl;
    [reflexivity | now rewrite IH, Hfg].
Qed.

(** The array [colors] the resolver is called on. *)
Variable lc : loc.
Variable colors : list value.

Lemma array_every_from_agrees :
  forall presetColors i,
    array_every_from
      (fun val j => Normal (VBool (strict_eq val (colors_at (VArr lc colors) j))))
      presetColors i
    = Normal (VBool (forallb
                       (fun k => strict_eq (at_index presetColors k)
                                   (at_index colors (i + k)))
                       (seq 0 (List.length presetColors)))).
Proof.
  induction presetColors as [|v rest IH]; intros i; [reflexivity|].
  cbn [array_every_from bind truthy colors_at List.length seq forallb].
  rewrite Nat.add_0_r. change (at_index (v :: rest) 0) with v.
  destruct (strict_eq v (at_index colors i)); [|reflexivity].
  rewrite IH. cbn [andb]. do 2 f_equal. symmetry.
  apply forallb_seq_shift. intros k.
  now rewrite Nat.add_succ_r.
Qed.

Lemma colors_callback_matches (entry : value) :
  colors_field_ok entry = true ->
  exists r, colors_callback (VArr lc colors) entry = Normal r
            /\ truthy r = preset_matches colors entry.
Proof.
  unfold colors_field_ok, colors_callback, preset_matches.
  rewrite opt_get_field. cbn [bind].
  destruct (field "colors" entry) as [| | b | r | s | l pcs | l fs];
    intros H; try discriminate H;
    try (eexists; split; reflexivity).
  cbn [is_nullish call_every]. unfold array_every.
  rewrite array_every_from_agrees.
  eexists; split; reflexivity.
Qed.

Lemma array_find_first_match :
  forall entries,
    forallb colors_field_ok entries = true ->
    array_find (colors_callback (VArr lc colors)) entries
    = Normal (match first_matching_preset colors entries with
              | Some p => p
              | None => VUndefined
              end).
Proof.
  unfold first_matching_preset.
  induction entries as [|e rest IH]; simpl; [reflexivity|].
  intros H. apply andb_prop in H as [He Hrest].
  destruct (colors_callback_matches e He) as (r & -> & Hr).
  cbn [bind]. rewrite Hr.
  destruct (preset_matches colors e); [reflexivity|]. now apply IH.
Qed.

Lemma preset_matches_object (entry : value) :
  preset_matches colors entry = true ->
  truthy entry = true /\ get entry "slug" = Normal (field "slug" entry).
Proof.
  unfold preset_matches.
  destruct entry; simpl; intros H; try discriminate H. now split.
Qed.

Lemma getDuotonePresetFromColors_array (lp : loc) (entries : list value) :
  forallb colors_field_ok entries = true ->
  getDuotonePresetFromColors (VArr lc colors) (VArr lp entries)
  = Normal (match first_matching_preset colors entries with
            | Some p => VStr ("var:preset|duotone|" ++ to_string (field "slug" p))
            | None => VUndefined
            end).
Proof.
  intros H. unfold getDuotonePresetFromColors.
  cbn [truthy isArray negb orb is_nullish call_find].
  rewrite (array_find_first_match entries H). cbn [bind].
  unfold first_matching_preset.
  destruct (find (preset_matches colors) entries) as [p|] eqn:F;
    [|reflexivity].
  apply find_some in F as [_ Hp].
  apply preset_matches_object in Hp as [-> ->]. reflexivity.
Qed.

End Resolvers.

(** C1.  For an array [colors] and a palette whose entries carry a colour
    list where they carry a [colors] at all, [getDuotonePresetFromColors]
    returns the reference ["var:preset|duotone|" ++ slug] of the first entry,
    in palette order, whose colour list holds at each of its own indices the
    value [colors] holds there, and [undefined] when no entry does. *)
Theorem getDuotonePresetFromColors_first_match
  (lc lp : loc) (colors entries : list value) :
  forallb colors_field_ok entries = true ->
  getDuotonePresetFromColors (VArr lc colors) (VArr lp entries)
  = Normal (match first_matching_preset colors entries with
            | Some p => VStr ("var:preset|duotone|" ++ to_string (field "slug" p))
            | None => VUndefined
            end).
Proof. apply getDuotonePresetFromColors_array. Qed.

Section Search.

Lemma array_find_skip (cb : value -> completion value)
  (before : list value) (p : value) (after : list value) :
  (forall q, In q before -> exists r, cb q = Normal r /\ truthy r = false) ->
  (exists r, cb p = Normal r /\ truthy r = true) ->
  array_find cb (before ++ p :: after) = Normal p.
Proof.
  intros Hbefore (r & Hp & Hr).
  induction before as [|q rest IH]; simpl.
  - now rewrite Hp; cbn [bind]; rewrite Hr.
  - destruct (Hbefore q (or_introl eq_refl)) as (rq & -> & Hq).
    cbn [bind]. rewrite Hq.
    apply IH. intros q' Hq'. apply Hbefore. now right.
Qed.

Lemma array_find_total (cb : value -> completion value) (entries : list value) :
  (forall e, In e entries -> exists r, cb e = Normal r) ->
  exists v, array_find cb entries = Normal v.
Proof.
  induction entries as [|e rest IH]; simpl; intros H.
  - now exists VUndefined.
  - destruct (H e (or_introl eq_refl)) as (r & ->). cbn [bind].
    destruct (truthy r); [now exists e|].
    apply IH. intros e' He'. apply H. now right.
Qed.

Lemma eqb_app_prefix (prefix a b : string) :
  String.eqb (prefix ++ a) (prefix ++ b) = String.eqb a b.
Proof.
  induction prefix as [|c rest IH]; simpl; [reflexivity|].
  now rewrite Ascii.eqb_refl.
Qed.

(** The callback of [getColorsFromDuotonePreset] on an entry that is not
    [undefined] or [null], for a reference as first argument. *)
Lemma slug_callback (slug : string) (entry : value) :
  is_nullish entry = false ->
  (s <- get entry "slug" ;;
   Normal (VBool (strict_eq (VStr ("var:preset|duotone|" ++ slug))
                    (VStr (preset_reference s)))))
  = Normal (VBool (has_slug slug entry)).
Proof.
  intros H. rewrite (get_field _ _ H). cbn [bind strict_eq].
  unfold preset_reference, has_slug. rewrite eqb_app_prefix.
  now rewrite String.eqb_sym.
Qed.

Lemma reference_truthy (slug : string) :
  truthy (VStr ("var:preset|duotone|" ++ slug)) = true.
Proof. reflexivity. Qed.

End Search.

(** C3, amended.  For every palette and every preset [p] in it such that no
    entry before [p] is [undefined] or [null] or has the slug of [p],
    [getColorsFromDuotonePreset] on ["var:preset|duotone|" ++ p.slug] returns
    exactly [p.colors]. *)
Theorem getColorsFromDuotonePreset_first_slug
  (lp l : loc) (fields : list (string * value)) (before after : list value) :
  forallb (fun q => negb (is_nullish q)
                    && negb (has_slug (to_string (field "slug" (VObj l fields))) q))
    before = true ->
  getColorsFromDuotonePreset
    (VStr ("var:preset|duotone|" ++ to_string (field "slug" (VObj l fields))))
    (VArr lp (before ++ VObj l fields :: after))
  = Normal (field "colors" (VObj l fields)).
Proof.
  intros H. unfold getColorsFromDuotonePreset.
  rewrite reference_truthy. cbn [negb is_nullish call_find].
  rewrite array_find_skip.
  - reflexivity.
  - intros q Hq. rewrite forallb_forall in H. specialize (H q Hq).
    apply andb_prop in H as [Hn Hs].
    rewrite slug_callback by now destruct (is_nullish q).
    eexists; split; [reflexivity|]. cbn [truthy].
    now destruct (has_slug _ q).
  - rewrite slug_callback by reflexivity.
    eexists; split; [reflexivity|]. cbn [truthy]. unfold has_slug.
    apply String.eqb_refl.
Qed.

(** C3 as stated fails: with two presets of slug "dark" in the palette, the
    reference built from the second one resolves to the colours of the
    first. *)
Lemma getColorsFromDuotonePreset_shared_slug :
  In Samples.default_dark [Samples.theme_dark; Samples.default_dark]
  /\ getColorsFromDuotonePreset
       (VStr ("var:preset|duotone|" ++ to_string (field "slug" Samples.default_dark)))
       (VArr 0 [Samples.theme_dark; Samples.default_dark])
     = Normal (field "colors" Samples.theme_dark)
  /\ getColorsFromDuotonePreset
       (VStr ("var:preset|duotone|" ++ to_string (field "slug" Samples.default_dark)))
       (VArr 0 [Samples.theme_dark; Samples.default_dark])
     <> Normal (field "colors" Samples.default_dark).
Proof.
  split; [right; left; reflexivity|].
  split; [reflexivity|]. vm_compute. discriminate.
Qed.

Lemma getColorsFromDuotonePreset_first_slug_witness :
  getColorsFromDuotonePreset
    (VStr ("var:preset|duotone|" ++ to_string (field "slug" Samples.blue)))
    (VArr 0 ([Samples.theme_dark; Samples.grayscale] ++ Samples.blue :: [VNull]))
  = Normal (field "colors" Samples.blue).
Proof.
  exact (getColorsFromDuotonePreset_first_slug 0 9
           [("slug", VStr "blue-orange"); ("colors", VArr 10 Samples.blue_orange)]
           [Samples.theme_dark; Samples.grayscale] [VNull] eq_refl).
Defined.

(** C4, amended.  For every palette and every preset [p] in it with colour
    list [[c0, c1]] such that no entry before [p] matches [[c0, c1]] (none
    has a colour list that is [[c0, c1]] or a prefix of it), 
    [getDuotonePresetFromColors] on [[c0, c1]] returns
    ["var:preset|duotone|" ++ p.slug]. *)
Theorem getDuotonePresetFromColors_of_preset
  (lc lp l lpc : loc) (fields : list (string * value)) (c0 c1 : string)
  (before after : list value) :
  lookup "colors" fields = Some (VArr lpc [VStr c0; VStr c1]) ->
  forallb (fun q => colors_field_ok q
                    && negb (preset_matches [VStr c0; VStr c1] q))
    before = true ->
  getDuotonePresetFromColors (VArr lc [VStr c0; VStr c1])
    (VArr lp (before ++ VObj l fields :: after))
  = Normal (VStr ("var:preset|duotone|" ++ to_string (field "slug" (VObj l fields)))).
Proof.
  intros Hc H. unfold getDuotonePresetFromColors.
  cbn [truthy isArray negb orb is_nullish call_find].
  rewrite array_find_skip.
  - reflexivity.
  - intros q Hq. rewrite forallb_forall in H. specialize (H q Hq).
    apply andb_prop in H as [Hok Hm].
    destruct (colors_callback_matches lc [VStr c0; VStr c1] q Hok)
      as (r & Hr & Ht).
    exists r. split; [exact Hr|]. rewrite Ht. now destruct (preset_matches _ q).
  - assert (Hok : colors_field_ok (VObj l fields) = true)
      by (unfold colors_field_ok, field; now rewrite Hc).
    destruct (colors_callback_matches lc [VStr c0; VStr c1] _ Hok)
      as (r & Hr & Ht).
    exists r. split; [exact Hr|]. rewrite Ht.
    unfold preset_matches, field. rewrite Hc. unfold agrees. simpl.
    now rewrite !String.eqb_refl.
Qed.

(** C4 as stated fails: with two presets of the same two colours in the
    palette, the colours of the second resolve to the reference of the
    first. *)
Lemma getDuotonePresetFromColors_shared_colors :
  In Samples.mono [Samples.grayscale; Samples.mono]
  /\ field "colors" Samples.mono = VArr 8 [VStr "#000000"; VStr "#ffffff"]
  /\ getDuotonePresetFromColors (VArr 40 [VStr "#000000"; VStr "#ffffff"])
       (VArr 0 [Samples.grayscale; Samples.mono])
     = Normal (VStr "var:preset|duotone|grayscale")
  /\ getDuotonePresetFromColors (VArr 40 [VStr "#000000"; VStr "#ffffff"])
       (VArr 0 [Samples.grayscale; Samples.mono])
     <> Normal (VStr ("var:preset|duotone|" ++ to_string (field "slug" Samples.mono))).
Proof.
  split; [right; left; reflexivity|].
  repeat split; try reflexivity. vm_compute. discriminate.
Qed.

Lemma getDuotonePresetFromColors_of_preset_witness :
  getDuotonePresetFromColors (VArr 40 [VStr "#000000"; VStr "#ffffff"])
    (VArr 0 ([Samples.blue; Samples.no_colors] ++ Samples.mono :: [Samples.grayscale]))
  = Normal (VStr ("var:preset|duotone|" ++ to_string (field "slug" Samples.mono))).
Proof.
  exact (getDuotonePresetFromColors_of_preset 40 0 7 8
           [("slug", VStr "mono"); ("colors", VArr 8 Samples.black_white)]
           "#000000" "#ffffff"
           [Samples.blue; Samples.no_colors] [Samples.grayscale]
           eq_refl eq_refl).
Defined.

Lemma getDuotonePresetFromColors_first_match_witness :
  getDuotonePresetFromColors
    (VArr 40 [VStr "#000000"; VStr "#ffffff"; VStr "#777777"])
    (VArr 0 [Samples.blue; Samples.no_colors; VNull; Samples.mono;
             Samples.grayscale])
  = Normal (VStr "var:preset|duotone|mono").
Proof.
  exact (getDuotonePresetFromColors_first_match 40 0
           [VStr "#000000"; VStr "#ffffff"; VStr "#777777"]
           [Samples.blue; Samples.no_colors; VNull; Samples.mono;
            Samples.grayscale]
           eq_refl).
Defined.

Section Totality.

Lemma getColorsFromDuotonePreset_falsy (duotone duotonePalette : value) :
  truthy duotone = false ->
  getColorsFromDuotonePreset duotone duotonePalette = Normal VUndefined.
Proof. unfold getColorsFromDuotonePreset. now intros ->. Qed.

Lemma getDuotonePresetFromColors_not_array (colors duotonePalette : value) :
  isArray colors = false ->
  getDuotonePresetFromColors colors duotonePalette = Normal VUndefined.
Proof.
  unfold getDuotonePresetFromColors. intros ->.
  now rewrite Bool.orb_true_r.
Qed.

Lemma getColorsFromDuotonePreset_safe (duotone duotonePalette : value) :
  palette_safe_for_colors duotonePalette = true ->
  exists v, getColorsFromDuotonePreset duotone duotonePalette = Normal v.
Proof.
  unfold getColorsFromDuotonePreset, palette_safe_for_colors.
  destruct (truthy duotone); cbn [negb]; [|now exists VUndefined].
  destruct duotonePalette as [| | b | r | s | l entries | l fs];
    intros H; try discriminate H; try (now exists VUndefined).
  cbn [is_nullish call_find].
  destruct (array_find_total
              (fun entry =>
                 slug <- get entry "slug" ;;
                 Normal (VBool (strict_eq duotone (VStr (preset_reference slug)))))
              entries) as (preset & ->).
  - intros e He. rewrite forallb_forall in H. specialize (H e He).
    rewrite get_field by now destruct (is_nullish e).
    cbn [bind]. now eexists.
  - cbn [bind]. destruct (truthy preset) eqn:T; [|now exists VUndefined].
    rewrite get_field by now apply truthy_not_nullish. now eexists.
Qed.

Lemma getDuotonePresetFromColors_safe (colors duotonePalette : value) :
  palette_safe_for_preset duotonePalette = true ->
  exists v, getDuotonePresetFromColors colors duotonePalette = Normal v.
Proof.
  destruct (isArray colors) eqn:A.
  2:{ intros _. rewrite getDuotonePresetFromColors_not_array by exact A.
      now eexists. }
  destruct colors as [| | b | r | s | lc cs | l fs]; try discriminate A.
  unfold palette_safe_for_preset.
  destruct duotonePalette as [| | b | r | s | l entries | l fs];
    intros H; try discriminate H; try (now exists VUndefined).
  rewrite getDuotonePresetFromColors_array by exact H. now eexists.
Qed.

End Totality.

(** C7, amended.  [getColorsFromDuotonePreset] returns normally, with a
    result or [undefined], for every falsy style value whatever the palette,
    and for every style value when the palette is [undefined], [null] or an
    array none of whose entries is [undefined] or [null];
    [getDuotonePresetFromColors] returns normally for every [colors] that is
    not an array whatever the palette, and for every [colors] when the
    palette is [undefined], [null] or an array whose entries have a [colors]
    that is absent, [undefined], [null] or an array. *)
Theorem resolvers_return_normally (duotone colors duotonePalette : value) :
  truthy duotone = false \/ palette_safe_for_colors duotonePalette = true ->
  isArray colors = false \/ palette_safe_for_preset duotonePalette = true ->
  (exists v, getColorsFromDuotonePreset duotone duotonePalette = Normal v)
  /\ (exists v, getDuotonePresetFromColors colors duotonePalette = Normal v).
Proof.
  intros [Hd | Hp] [Hc | Hq]; split;
    try (now apply getColorsFromDuotonePreset_safe);
    try (now apply getDuotonePresetFromColors_safe);
    try (exists VUndefined; now apply getColorsFromDuotonePreset_falsy);
    try (exists VUndefined; now apply getDuotonePresetFromColors_not_array).
Qed.

(** C7 as stated fails: on a palette that is an object keyed by origin
    instead of an array, [getColorsFromDuotonePreset] throws; on a palette
    with an entry whose [colors] is a string, [getDuotonePresetFromColors]
    throws. *)
Lemma resolvers_throw :
  ~ (exists v, getColorsFromDuotonePreset (VStr "var:preset|duotone|dark")
                 Samples.by_origin = Normal v)
  /\ ~ (exists v, getDuotonePresetFromColors (VArr 40 Samples.black_white)
                    (VArr 0 [Samples.string_colors]) = Normal v).
Proof.
  split; intros (v & H); vm_compute in H; discriminate H.
Qed.

Lemma resolvers_return_normally_witness :
  (exists v, getColorsFromDuotonePreset (VStr "var:preset|duotone|mono")
               (VArr 0 [Samples.no_colors; VStr "stray"; Samples.mono])
             = Normal v)
  /\ (exists v, getDuotonePresetFromColors (VArr 40 Samples.black_white)
                  (VArr 0 [Samples.no_colors; VStr "stray"; Samples.mono])
                = Normal v).
Proof.
  exact (resolvers_return_normally (VStr "var:preset|duotone|mono")
           (VArr 40 Samples.black_white)
           (VArr 0 [Samples.no_colors; VStr "stray"; Samples.mono])
           (or_intror eq_refl) (or_intror eq_refl)).
Defined.

(** C9.  For every palette and every [colors] that is not an array,
    [getDuotonePresetFromColors] returns [undefined]; the palette plays no
    part, even one on which a search would throw. *)
Theorem getDuotonePresetFromColors_non_array (colors duotonePalette : value) :
  isArray colors = false ->
  getDuotonePresetFromColors colors duotonePalette = Normal VUndefined.
Proof. apply getDuotonePresetFromColors_not_array. Qed.

Lemma getDuotonePresetFromColors_non_array_witness :
  getDuotonePresetFromColors (VStr "#000000") Samples.by_origin
  = Normal VUndefined.
Proof.
  exact (getDuotonePresetFromColors_non_array (VStr "#000000")
           Samples.by_origin eq_refl).
Defined.

(** C10.  A first palette entry with an empty colour list matches every array
    [colors], the empty one included, and its reference is returned; an entry
    whose [colors] is missing, [undefined] or [null] matches nothing: the
    callback answers [undefined] on it and the search goes on as if the entry
    were not there. *)
Theorem getDuotonePresetFromColors_empty_and_missing
  (lc lp l lpc : loc) (fields : list (string * value))
  (colors rest : list value) (anyColors entry : value) :
  lookup "colors" fields = Some (VArr lpc []) ->
  is_nullish (field "colors" entry) = true ->
  getDuotonePresetFromColors (VArr lc colors) (VArr lp (VObj l fields :: rest))
  = Normal (VStr ("var:preset|duotone|" ++ to_string (field "slug" (VObj l fields))))
  /\ colors_callback anyColors entry = Normal VUndefined
  /\ getDuotonePresetFromColors anyColors (VArr lp (entry :: rest))
     = getDuotonePresetFromColors anyColors (VArr lp rest).
Proof.
  intros Hempty Hmissing.
  assert (Hcb : colors_callback anyColors entry = Normal VUndefined).
  { unfold colors_callback. rewrite opt_get_field. cbn [bind].
    now rewrite Hmissing. }
  split; [|split; [exact Hcb|]].
  - unfold getDuotonePresetFromColors.
    cbn [truthy isArray negb orb is_nullish call_find array_find].
    unfold colors_callback at 1. rewrite opt_get_field. unfold field at 1.
    rewrite Hempty. reflexivity.
  - unfold getDuotonePresetFromColors.
    destruct (negb (truthy anyColors) || negb (isArray anyColors))%bool;
      [reflexivity|].
    cbn [is_nullish call_find array_find]. rewrite Hcb. reflexivity.
Qed.

Lemma getDuotonePresetFromColors_empty_and_missing_witness :
  getDuotonePresetFromColors (VArr 40 Samples.blue_orange)
    (VArr 0 [Samples.empty_preset; Samples.blue])
  = Normal (VStr "var:preset|duotone|none")
  /\ colors_callback (VArr 41 []) Samples.no_colors = Normal VUndefined
  /\ getDuotonePresetFromColors (VArr 41 [])
       (VArr 0 [Samples.no_colors; Samples.blue])
     = getDuotonePresetFromColors (VArr 41 []) (VArr 0 [Samples.blue]).
Proof.
  exact (getDuotonePresetFromColors_empty_and_missing 40 0 11 12
           [("slug", VStr "none"); ("colors", VArr 12 [])]
           Samples.blue_orange [Samples.blue] (VArr 41 []) Samples.no_colors
           eq_refl eq_refl).
Defined.

(** ** The sentinel "unset" *)

Section Sentinel.

(** [BlockDuotoneStyles] never calls the resolver on the sentinel, and hands
    the sentinel on to [InlineDuotone], which renders the unset stylesheet. *)
Lemma BlockDuotoneStyles_unset (duotonePalette element : value)
  (duotoneSupportSelectors id : string) :
  truthy element = true ->
  BlockDuotoneStyles duotonePalette element duotoneSupportSelectors
    (VStr "unset") id
  = ([], Normal (Some (DuotoneUnsetStylesheet
                         (selectorsGroup id duotoneSupportSelectors)))).
Proof. unfold BlockDuotoneStyles. intros ->. reflexivity. Qed.

Lemma BlockDuotoneStyles_unset_no_call (duotonePalette element : value)
  (duotoneSupportSelectors id : string) :
  fst (BlockDuotoneStyles duotonePalette element duotoneSupportSelectors
         (VStr "unset") id) = [].
Proof.
  unfold BlockDuotoneStyles. destruct (truthy element); reflexivity.
Qed.

(** No reference is the sentinel: the resolver answers [undefined] on it
    whenever it returns. *)
Lemma unset_is_no_reference (slug : value) :
  strict_eq (VStr "unset") (VStr (preset_reference slug)) = false.
Proof. reflexivity. Qed.

End Sentinel.

(** C8.  [DuotonePanel], given attributes whose duotone style is "unset" and
    a palette that is not empty, calls [getColorsFromDuotonePreset] on the
    sentinel and hands [undefined] to the control, where [BlockDuotoneStyles]
    on the same style and palette makes no call. *)
Theorem DuotonePanel_resolves_unset :
  DuotonePanel (VArr 0 [Samples.grayscale; Samples.blue]) false
    Samples.unset_attributes
  = ([Call_getColorsFromDuotonePreset (VStr "unset")
        (VArr 0 [Samples.grayscale; Samples.blue])],
     Normal (Some VUndefined))
  /\ fst (BlockDuotoneStyles (VArr 0 [Samples.grayscale; Samples.blue])
            Samples.container "img" (VStr "unset") "wp-duotone-1") = [].
Proof. split; reflexivity. Qed.

(** ** Beyond the claims: the resolvers as searches *)

Import Components Shapes.

Section ResolverSearch.

Lemma array_find_found (cb : value -> completion value) (entries : list value)
  (v : value) :
  array_find cb entries = Normal v ->
  v = VUndefined
  \/ (In v entries /\ exists r, cb v = Normal r /\ truthy r = true).
Proof.
  induction entries as [|e rest IH]; simpl.
  - intros H. left. now inversion H.
  - destruct (cb e) as [r|] eqn:E; cbn [bind]; [|discriminate].
    destruct (truthy r) eqn:T.
    + intros H. inversion H; subst. right. split; [now left|]. now exists r.
    + intros H. destruct (IH H) as [-> | (Hin & Hr)]; [now left|].
      right. split; [now right | exact Hr].
Qed.

Lemma resolved_colors (preset : value) :
  (if truthy preset then get preset "colors" else Normal VUndefined)
  = Normal (field "colors" preset).
Proof. destruct preset as [| | [|] | r | s | l es | l fs]; simpl;
         try reflexivity; destruct (_ && _)%bool || destruct (negb _);
         reflexivity.
Qed.

Lemma slug_search (duotone : value) :
  forall entries,
    forallb (fun entry => negb (is_nullish entry)) entries = true ->
    array_find
      (fun entry =>
         slug <- get entry "slug" ;;
         Normal (VBool (strict_eq duotone (VStr (preset_reference slug)))))
      entries
    = Normal (match find (referred_by duotone) entries with
              | Some p => p
              | None => VUndefined
              end).
Proof.
  induction entries as [|e rest IH]; simpl; [reflexivity|].
  intros H. apply andb_prop in H as [He Hrest].
  rewrite get_field by now destruct (is_nullish e).
  cbn [bind truthy]. unfold referred_by at 1.
  destruct (strict_eq duotone _); [reflexivity | now apply IH].
Qed.

Lemma getColorsFromDuotonePreset_array (duotone : value) (lp : loc)
  (entries : list value) :
  truthy duotone = true ->
  forallb (fun entry => negb (is_nullish entry)) entries = true ->
  getColorsFromDuotonePreset duotone (VArr lp entries)
  = Normal (match find (referred_by duotone) entries with
            | Some p => field "colors" p
            | None => VUndefined
            end).
Proof.
  intros Hd H. unfold getColorsFromDuotonePreset. rewrite Hd.
  cbn [negb is_nullish call_find]. rewrite slug_search by exact H.
  cbn [bind]. rewrite resolved_colors.
  now destruct (find (referred_by duotone) entries).
Qed.

Lemma prefix_app (p x : string) : String.prefix p (p ++ x) = true.
Proof.
  induction p as [|c p IH]; simpl; [now destruct x|].
  destruct (ascii_dec c c) as [_|N]; [exact IH | now elim N].
Qed.

Lemma referred_by_reference (duotone entry : value) :
  referred_by duotone entry = true -> is_preset_reference duotone = true.
Proof.
  unfold referred_by, is_preset_reference, preset_reference.
  destruct duotone; cbn [strict_eq]; try discriminate.
  intros H. apply String.eqb_eq in H. subst s. apply prefix_app.
Qed.

Lemma referred_by_slug (slug : string) (entry : value) :
  referred_by (VStr ("var:preset|duotone|" ++ slug)) entry = has_slug slug entry.
Proof.
  unfold referred_by, preset_reference, has_slug. cbn [strict_eq].
  rewrite eqb_app_prefix. apply String.eqb_sym.
Qed.

Lemma colors_callback_truthy (colors entry r : value) (lc : loc)
  (cs : list value) :
  colors = VArr lc cs ->
  colors_callback colors entry = Normal r -> truthy r = true ->
  preset_matches cs entry = true.
Proof.
  intros -> H T. unfold colors_callback in H. rewrite opt_get_field in H.
  cbn [bind] in H. unfold preset_matches.
  destruct (field "colors" entry) as [| | b | n | s | l pcs | l fs];
    cbn [is_nullish call_every] in H;
    try discriminate H;
    try (inversion H; subst r; discriminate T).
  unfold array_every in H. rewrite array_every_from_agrees in H.
  inversion H; subst r. exact T.
Qed.

End ResolverSearch.

(** X1.  On a truthy style value and a palette array without [undefined] or
    [null] entries, [getColorsFromDuotonePreset] returns the [colors] of the
    first entry, in palette order, whose reference is [===] the style value,
    and [undefined] when there is none. *)
Theorem getColorsFromDuotonePreset_search (duotone : value) (lp : loc)
  (entries : list value) :
  truthy duotone = true ->
  forallb (fun entry => negb (is_nullish entry)) entries = true ->
  getColorsFromDuotonePreset duotone (VArr lp entries)
  = Normal (match find (referred_by duotone) entries with
            | Some p => field "colors" p
            | None => VUndefined
            end).
Proof. apply getColorsFromDuotonePreset_array. Qed.

Lemma getColorsFromDuotonePreset_search_witness :
  getColorsFromDuotonePreset (VStr "var:preset|duotone|dark")
    (VArr 0 [Samples.grayscale; Samples.theme_dark; Samples.default_dark])
  = Normal (VArr 2 Samples.black_white).
Proof.
  exact (getColorsFromDuotonePreset_search (VStr "var:preset|duotone|dark") 0
           [Samples.grayscale; Samples.theme_dark; Samples.default_dark]
           eq_refl eq_refl).
Defined.

(** X2.  A style value that is not a string beginning "var:preset|duotone|"
    (the sentinel "unset", a colour array, a number, a bare slug) resolves to
    [undefined] on every palette on which the search does not throw. *)
Theorem getColorsFromDuotonePreset_not_a_reference
  (duotone duotonePalette : value) :
  is_preset_reference duotone = false ->
  palette_safe_for_colors duotonePalette = true ->
  getColorsFromDuotonePreset duotone duotonePalette = Normal VUndefined.
Proof.
  intros Hr Hp. destruct (truthy duotone) eqn:T.
  2:{ now apply getColorsFromDuotonePreset_falsy. }
  destruct duotonePalette as [| | b | n | s | l entries | l fs];
    try discriminate Hp;
    try (unfold getColorsFromDuotonePreset; rewrite T; reflexivity).
  rewrite getColorsFromDuotonePreset_array by assumption.
  destruct (find (referred_by duotone) entries) as [p|] eqn:F; [|reflexivity].
  apply find_some in F as [_ F]. apply referred_by_reference in F. congruence.
Qed.

Lemma getColorsFromDuotonePreset_not_a_reference_witness :
  getColorsFromDuotonePreset (VStr "dark")
    (VArr 0 [Samples.theme_dark; Samples.blue])
  = Normal VUndefined.
Proof.
  exact (getColorsFromDuotonePreset_not_a_reference (VStr "dark")
           (VArr 0 [Samples.theme_dark; Samples.blue]) eq_refl eq_refl).
Defined.

(** X3.  Whatever the palette array holds, a normal return of
    [getDuotonePresetFromColors] on an array is [undefined] or the reference
    of a palette entry whose colour list agrees with the input: it never
    names a preset that does not match. *)
Theorem getDuotonePresetFromColors_sound (lc lp : loc)
  (colors entries : list value) (v : value) :
  getDuotonePresetFromColors (VArr lc colors) (VArr lp entries) = Normal v ->
  v = VUndefined
  \/ exists p, In p entries /\ preset_matches colors p = true
               /\ v = VStr ("var:preset|duotone|" ++ to_string (field "slug" p)).
Proof.
  unfold getDuotonePresetFromColors.
  cbn [truthy isArray negb orb is_nullish call_find].
  destruct (array_find (colors_callback (VArr lc colors)) entries)
    as [preset|] eqn:F; cbn [bind]; [|discriminate].
  destruct (truthy preset) eqn:T.
  2:{ intros H. left. now inversion H. }
  rewrite get_field by now apply truthy_not_nullish. cbn [bind].
  intros H. inversion H; subst v. clear H.
  apply array_find_found in F as [-> | (Hin & r & Hr & Ht)];
    [discriminate T|].
  right. exists preset. split; [exact Hin|]. split; [|reflexivity].
  exact (colors_callback_truthy _ _ _ lc colors eq_refl Hr Ht).
Qed.

Lemma getDuotonePresetFromColors_sound_witness :
  getDuotonePresetFromColors (VArr 40 Samples.black_white)
    (VArr 0 [Samples.no_colors; Samples.grayscale; Samples.string_colors])
  = Normal (VStr "var:preset|duotone|grayscale")
  /\ (VStr "var:preset|duotone|grayscale" = VUndefined
      \/ exists p,
           In p [Samples.no_colors; Samples.grayscale; Samples.string_colors]
           /\ preset_matches Samples.black_white p = true
           /\ VStr "var:preset|duotone|grayscale"
              = VStr ("var:preset|duotone|" ++ to_string (field "slug" p))).
Proof.
  split; [reflexivity|].
  exact (getDuotonePresetFromColors_sound 40 0 Samples.black_white
           [Samples.no_colors; Samples.grayscale; Samples.string_colors]
           (VStr "var:preset|duotone|grayscale") eq_refl).
Defined.

Section RoundTrip.

Lemma find_referred_by (slug : string) (entries : list value) :
  find (referred_by (VStr ("var:preset|duotone|" ++ slug))) entries
  = find (has_slug slug) entries.
Proof.
  induction entries as [|e rest IH]; [reflexivity|].
  cbn [find]. now rewrite referred_by_slug, IH.
Qed.

Lemma has_slug_own (p : value) : has_slug (to_string (field "slug" p)) p = true.
Proof. apply String.eqb_refl. Qed.

Lemma find_distinct (entries : list value) (p : value) :
  slugs_distinct entries = true -> In p entries ->
  find (has_slug (to_string (field "slug" p))) entries = Some p.
Proof.
  induction entries as [|e rest IH]; [intros _ []|].
  cbn [slugs_distinct find]. intros H Hin.
  apply andb_prop in H as [Hnone Hrest].
  destruct Hin as [-> | Hin]; [now rewrite has_slug_own|].
  destruct (has_slug (to_string (field "slug" p)) e) eqn:E;
    [|now apply IH].
  exfalso. apply Bool.negb_true_iff in Hnone.
  enough (X : existsb (has_slug (to_string (field "slug" e))) rest = true)
    by congruence.
  apply existsb_exists. exists p. split; [exact Hin|].
  unfold has_slug in *. now rewrite String.eqb_sym.
Qed.

Lemma resolved_reference_resolves (lc lp : loc) (colors entries : list value)
  (r : string) :
  forallb (fun entry => negb (is_nullish entry)) entries = true ->
  slugs_distinct entries = true ->
  getDuotonePresetFromColors (VArr lc colors) (VArr lp entries)
  = Normal (VStr r) ->
  exists l presetColors,
    getColorsFromDuotonePreset (VStr r) (VArr lp entries)
    = Normal (VArr l presetColors)
    /\ agrees presetColors colors = true.
Proof.
  intros Hn Hd H.
  unfold getDuotonePresetFromColors in H.
  cbn [truthy isArray negb orb is_nullish call_find] in H.
  destruct (array_find (colors_callback (VArr lc colors)) entries)
    as [p|] eqn:F; cbn [bind] in H; [|discriminate H].
  destruct (truthy p) eqn:T; [|discriminate H].
  rewrite get_field in H by now apply truthy_not_nullish.
  cbn [bind] in H. inversion H; subst r. clear H.
  apply array_find_found in F as [-> | (Hin & x & Hx & Ht)];
    [discriminate T|].
  pose proof (colors_callback_truthy _ _ _ lc colors eq_refl Hx Ht) as Hm.
  unfold preset_reference.
  rewrite getColorsFromDuotonePreset_array by (exact Hn || reflexivity).
  rewrite find_referred_by, (find_distinct entries p Hd Hin).
  unfold preset_matches in Hm.
  destruct (field "colors" p) as [| | b | n | s | l pcs | l fs];
    try discriminate Hm.
  now exists l, pcs.
Qed.

Lemma lookup_set_field_same (name : string) (v : value)
  (fields : list (string * value)) :
  lookup name (set_field name v fields) = Some v.
Proof.
  induction fields as [|[k x] rest IH]; simpl.
  - now rewrite String.eqb_refl.
  - destruct (String.eqb k name) eqn:E; simpl; rewrite E; [reflexivity|].
    exact IH.
Qed.

Lemma lookup_set_field_other (name k : string) (v : value)
  (fields : list (string * value)) :
  k <> name ->
  lookup k (set_field name v fields) = lookup k fields.
Proof.
  intros Hk. apply String.eqb_neq in Hk.
  induction fields as [|[k' x] rest IH]; simpl.
  - now rewrite String.eqb_sym, Hk.
  - destruct (String.eqb k' name) eqn:E; simpl.
    + apply String.eqb_eq in E. subst k'.
      now rewrite String.eqb_sym, Hk.
    + now rewrite IH.
Qed.

(** What [onChange] hands to [setAttributes] when the resolver returns. *)
Lemma onChange_result (next : loc) (style duotonePalette newDuotone : value)
  (maybePreset : value) :
  getDuotonePresetFromColors newDuotone duotonePalette = Normal maybePreset ->
  onChange next style duotonePalette newDuotone
  = Normal
      (VObj (S (S next))
         [("style",
           VObj next
             (set_field "color"
                (VObj (S next)
                   (set_field "duotone"
                      (nullish_coalesce maybePreset newDuotone)
                      (own_properties (field "color" style))))
                (own_properties style)))]).
Proof.
  intros H. unfold onChange. rewrite H, opt_get_field. reflexivity.
Qed.

Lemma stored_duotone (l l' l'' : loc) (stored : value)
  (colorFields styleFields : list (string * value)) :
  field "duotone"
    (field "color"
       (field "style"
          (VObj l'' [("style",
                      VObj l (set_field "color"
                                (VObj l' (set_field "duotone" stored colorFields))
                                styleFields))])))
  = stored.
Proof.
  cbn [field lookup String.eqb Ascii.eqb Bool.eqb].
  rewrite lookup_set_field_same. cbn [field].
  now rewrite lookup_set_field_same.
Qed.

End RoundTrip.

(** X4.  Round trip of the two resolvers.  On a palette array without
    [undefined] or [null] entries and with pairwise different slugs, the
    reference [getDuotonePresetFromColors] returns for a colour array resolves
    back, through [getColorsFromDuotonePreset], to a colour list that agrees
    with that array at each of the list's indices. *)
Theorem resolvers_round_trip (lc lp : loc) (colors entries : list value)
  (r : string) :
  forallb (fun entry => negb (is_nullish entry)) entries = true ->
  slugs_distinct entries = true ->
  getDuotonePresetFromColors (VArr lc colors) (VArr lp entries)
  = Normal (VStr r) ->
  exists l presetColors,
    getColorsFromDuotonePreset (VStr r) (VArr lp entries)
    = Normal (VArr l presetColors)
    /\ agrees presetColors colors = true.
Proof. apply resolved_reference_resolves. Qed.

Lemma resolvers_round_trip_witness :
  exists l presetColors,
    getColorsFromDuotonePreset (VStr "var:preset|duotone|blue-orange")
      (VArr 0 [Samples.grayscale; Samples.blue; Samples.no_colors])
    = Normal (VArr l presetColors)
    /\ agrees presetColors
         [VStr "#000097"; VStr "#ff4747"; VStr "#00ff00"] = true.
Proof.
  exact (resolvers_round_trip 40 0
           [VStr "#000097"; VStr "#ff4747"; VStr "#00ff00"]
           [Samples.grayscale; Samples.blue; Samples.no_colors]
           "var:preset|duotone|blue-orange" eq_refl eq_refl eq_refl).
Defined.

(** X5.  What [onChange] stores as [style.color.duotone]: the reference of
    the first matching preset when the new value is a colour array that
    matches one, and the new value itself otherwise (a custom colour array,
    the sentinel "unset", [undefined]).  It returns for every new value that
    is not an array, and for arrays on every palette on which the search
    does not throw. *)
Theorem onChange_stores (next : loc) (style duotonePalette newDuotone : value) :
  isArray newDuotone = false \/ palette_safe_for_preset duotonePalette = true ->
  exists r,
    onChange next style duotonePalette newDuotone = Normal r
    /\ field "duotone" (field "color" (field "style" r))
       = match newDuotone, duotonePalette with
         | VArr _ colors, VArr _ entries =>
             match first_matching_preset colors entries with
             | Some p =>
                 VStr ("var:preset|duotone|" ++ to_string (field "slug" p))
             | None => newDuotone
             end
         | _, _ => newDuotone
         end.
Proof.
  intros H.
  destruct (isArray newDuotone) eqn:A.
  - destruct H as [H | H]; [discriminate H|].
    destruct newDuotone as [| | b | n | s | lc cs | l fs]; try discriminate A.
    destruct duotonePalette as [| | b | n | s | lp es | l fs];
      try discriminate H.
    + eexists. split; [now apply onChange_result|]. now rewrite stored_duotone.
    + eexists. split; [now apply onChange_result|]. now rewrite stored_duotone.
    + eexists. split.
      * apply onChange_result. now apply getDuotonePresetFromColors_array.
      * rewrite stored_duotone.
        now destruct (first_matching_preset cs es).
  - eexists. split.
    + apply onChange_result. now apply getDuotonePresetFromColors_not_array.
    + rewrite stored_duotone. cbn [nullish_coalesce is_nullish].
      now destruct newDuotone; try discriminate A; destruct duotonePalette.
Qed.

Lemma onChange_stores_witness :
  exists r,
    onChange 70 Settings.rich_style
      (VArr 0 [Samples.grayscale; Samples.blue]) (VStr "unset") = Normal r
    /\ field "duotone" (field "color" (field "style" r)) = VStr "unset".
Proof.
  exact (onChange_stores 70 Settings.rich_style
           (VArr 0 [Samples.grayscale; Samples.blue]) (VStr "unset")
           (or_introl eq_refl)).
Defined.

(** X6.  [onChange] changes nothing else: every property of the old style
    other than [color], and every property of the old [style.color] other
    than [duotone], is in the style it hands to [setAttributes] with the
    value it had. *)
Theorem onChange_preserves (next : loc)
  (style duotonePalette newDuotone r : value) (k k' : string) :
  onChange next style duotonePalette newDuotone = Normal r ->
  k <> "color" -> k' <> "duotone" ->
  field k (field "style" r) = property k style
  /\ field k' (field "color" (field "style" r))
     = property k' (field "color" style).
Proof.
  intros H Hk Hk'. unfold onChange in H.
  destruct (getDuotonePresetFromColors newDuotone duotonePalette)
    as [maybePreset|]; cbn [bind] in H; [|discriminate H].
  rewrite opt_get_field in H. cbn [bind] in H. inversion H; subst r. clear H.
  cbn [field lookup String.eqb Ascii.eqb Bool.eqb]. unfold property. split.
  - now rewrite lookup_set_field_other.
  - rewrite lookup_set_field_same. cbn [field].
    now rewrite lookup_set_field_other.
Qed.

Lemma onChange_preserves_witness :
  field "spacing"
    (field "style"
       (VObj 72 [("style",
                  VObj 70 [("spacing", VStr "4px");
                           ("color",
                            VObj 71 [("text", VStr "#111111");
                                     ("duotone", Settings.custom_colors)])])]))
  = property "spacing" Settings.rich_style
  /\ field "text"
       (field "color"
          (field "style"
             (VObj 72 [("style",
                        VObj 70 [("spacing", VStr "4px");
                                 ("color",
                                  VObj 71 [("text", VStr "#111111");
                                           ("duotone", Settings.custom_colors)])])])))
     = property "text" (field "color" Settings.rich_style).
Proof.
  refine (onChange_preserves 70 Settings.rich_style
            (VArr 0 [Samples.grayscale; Samples.blue]) Settings.custom_colors
            _ "spacing" "text" eq_refl _ _); discriminate.
Defined.

Section Panel.

(** [DuotonePanel] depends on the attributes through
    [attributes?.style?.color?.duotone] alone. *)
Lemma DuotonePanel_reads (duotonePalette : value) (disableCustomDuotone : bool)
  (attributes : value) :
  DuotonePanel duotonePalette disableCustomDuotone attributes
  = let duotoneStyle :=
      field "duotone" (field "color" (field "style" attributes)) in
    if length_is_zero duotonePalette && disableCustomDuotone then tret None
    else
      tbind
        (if negb (isArray duotoneStyle)
         then invoke_getColorsFromDuotonePreset duotoneStyle duotonePalette
         else tret duotoneStyle)
        (fun duotonePresetOrColors => tret (Some duotonePresetOrColors)).
Proof.
  unfold DuotonePanel. rewrite opt_get_field.
  unfold lift at 1. cbn [tbind]. rewrite opt_get_field. cbn [bind].
  rewrite opt_get_field. unfold lift. cbn [tbind]. cbv zeta.
  destruct (length_is_zero duotonePalette && disableCustomDuotone)%bool;
    [reflexivity|].
  now destruct (if negb _ then _ else _) as [cs [x|]].
Qed.

Lemma resolver_answer (colors duotonePalette maybePreset : value) :
  getDuotonePresetFromColors colors duotonePalette = Normal maybePreset ->
  maybePreset = VUndefined \/ exists r, maybePreset = VStr r.
Proof.
  unfold getDuotonePresetFromColors.
  destruct (negb (truthy colors) || negb (isArray colors))%bool.
  - intros H. left. now inversion H.
  - destruct (if is_nullish duotonePalette then _ else _) as [preset|];
      cbn [bind]; [|discriminate].
    destruct (truthy preset).
    + destruct (get preset "slug") as [slug|]; cbn [bind]; [|discriminate].
      intros H. right. eexists. now inversion H.
    + intros H. left. now inversion H.
Qed.

End Panel.

(** X7.  What the panel shows after a change.  On a palette array without
    [undefined] or [null] entries, with pairwise different slugs, that does
    not hide the panel: once [onChange] has stored a colour array, the next
    [DuotonePanel] on the stored attributes hands the control either that
    very array, without calling the resolver, or, after one call of
    [getColorsFromDuotonePreset] on the stored reference, the colour list of
    a preset that agrees with the array. *)
Theorem onChange_then_DuotonePanel (next lc lp : loc) (style r : value)
  (colors entries : list value) (disableCustomDuotone : bool) :
  forallb (fun entry => negb (is_nullish entry)) entries = true ->
  slugs_distinct entries = true ->
  length_is_zero (VArr lp entries) && disableCustomDuotone = false ->
  onChange next style (VArr lp entries) (VArr lc colors) = Normal r ->
  DuotonePanel (VArr lp entries) disableCustomDuotone r
  = ([], Normal (Some (VArr lc colors)))
  \/ exists reference l presetColors,
       DuotonePanel (VArr lp entries) disableCustomDuotone r
       = ([Call_getColorsFromDuotonePreset (VStr reference) (VArr lp entries)],
          Normal (Some (VArr l presetColors)))
       /\ agrees presetColors colors = true.
Proof.
  intros Hn Hd Hshown H.
  destruct (getDuotonePresetFromColors (VArr lc colors) (VArr lp entries))
    as [maybePreset|] eqn:G.
  2:{ unfold onChange in H. rewrite G in H. discriminate H. }
  rewrite (onChange_result _ _ _ _ _ G) in H. inversion H; subst r. clear H.
  rewrite DuotonePanel_reads, stored_duotone. cbv zeta. rewrite Hshown.
  destruct (resolver_answer _ _ _ G) as [-> | (ref & ->)].
  - left. reflexivity.
  - right. cbn [nullish_coalesce is_nullish isArray negb].
    destruct (resolved_reference_resolves lc lp colors entries ref Hn Hd G)
      as (l & pcs & Hc & Ha).
    exists ref, l, pcs. split; [|exact Ha].
    unfold invoke_getColorsFromDuotonePreset. rewrite Hc. reflexivity.
Qed.

Lemma onChange_then_DuotonePanel_witness :
  DuotonePanel (VArr 0 [Samples.grayscale; Samples.blue]) true
    (VObj 72 [("style",
               VObj 70 [("spacing", VStr "4px");
                        ("color",
                         VObj 71 [("text", VStr "#111111");
                                  ("duotone",
                                   VStr "var:preset|duotone|blue-orange")])])])
  = ([], Normal (Some (VArr 63 Samples.blue_orange)))
  \/ exists reference l presetColors,
       DuotonePanel (VArr 0 [Samples.grayscale; Samples.blue]) true
         (VObj 72 [("style",
                    VObj 70 [("spacing", VStr "4px");
                             ("color",
                              VObj 71 [("text", VStr "#111111");
                                       ("duotone",
                                        VStr "var:preset|duotone|blue-orange")])])])
       = ([Call_getColorsFromDuotonePreset (VStr reference)
             (VArr 0 [Samples.grayscale; Samples.blue])],
          Normal (Some (VArr l presetColors)))
       /\ agrees presetColors Samples.blue_orange = true.
Proof.
  exact (onChange_then_DuotonePanel 70 63 0 Settings.rich_style _
           Samples.blue_orange [Samples.grayscale; Samples.blue] true
           eq_refl eq_refl eq_refl eq_refl).
Defined.

(** ** The preset tiers *)

Section Tiers.

Lemma spread_tier (v : value) :
  spread_elements (or_else v EMPTY_ARRAY)
  = if tier_ok v then Normal (tier_elements v) else Throw_TypeError.
Proof.
  unfold tier_ok, tier_elements, or_else.
  destruct (truthy v) eqn:T;
    destruct v as [| | [|] | n | s | l es | l fs];
    try discriminate T; reflexivity.
Qed.

Lemma getColorsFromDuotonePreset_at (slug : string) (lp : loc)
  (before after : list value) (p : value) :
  forallb (fun q => negb (is_nullish q) && negb (has_slug slug q)) before
  = true ->
  is_nullish p = false -> has_slug slug p = true ->
  getColorsFromDuotonePreset (VStr ("var:preset|duotone|" ++ slug))
    (VArr lp (before ++ p :: after))
  = Normal (field "colors" p).
Proof.
  intros H Hp Hs. unfold getColorsFromDuotonePreset.
  rewrite reference_truthy. cbn [negb is_nullish call_find].
  rewrite array_find_skip.
  - cbn [bind]. apply resolved_colors.
  - intros q Hq. rewrite forallb_forall in H. specialize (H q Hq).
    apply andb_prop in H as [Hn Hq'].
    rewrite slug_callback by now destruct (is_nullish q).
    eexists; split; [reflexivity|]. cbn [truthy].
    now destruct (has_slug slug q).
  - rewrite slug_callback by exact Hp.
    eexists; split; [reflexivity|]. exact Hs.
Qed.

Lemma find_split {A} (f : A -> bool) (l : list A) (p : A) :
  find f l = Some p ->
  exists before after,
    l = (before ++ p :: after)%list /\ f p = true
    /\ forallb (fun q => negb (f q)) before = true.
Proof.
  induction l as [|x rest IH]; simpl; [discriminate|].
  destruct (f x) eqn:E.
  - intros H. inversion H; subst x. now exists [], rest.
  - intros H. destruct (IH H) as (b & a & -> & Hp & Hb).
    exists (x :: b), a. repeat split; [exact Hp|]. simpl. now rewrite E.
Qed.

Lemma merged_palette (useSetting : string -> value) (fresh lc : loc)
  (presetSetting defaultSetting : string) (custom : list value)
  (duotonePalette : value) :
  useSetting (presetSetting ++ ".custom") = VArr lc custom ->
  useMultiOriginPresets useSetting fresh presetSetting defaultSetting
  = Normal duotonePalette ->
  exists others, duotonePalette = VArr fresh (custom ++ others)%list.
Proof.
  intros Hc H. unfold useMultiOriginPresets in H. cbv zeta in H.
  rewrite Hc in H. cbn [or_else truthy spread_elements bind] in H.
  destruct (spread_elements (or_else _ EMPTY_ARRAY)) as [theme|];
    cbn [bind] in H; [|discriminate H].
  destruct (spread_elements _) as [default|]; cbn [bind] in H;
    [|discriminate H].
  inversion H. now eexists.
Qed.

Lemma custom_preset_resolves (useSetting : string -> value) (fresh lc : loc)
  (presetSetting defaultSetting slug : string) (custom : list value)
  (p duotonePalette : value) :
  useSetting (presetSetting ++ ".custom") = VArr lc custom ->
  forallb (fun q => negb (is_nullish q)) custom = true ->
  find (has_slug slug) custom = Some p ->
  useMultiOriginPresets useSetting fresh presetSetting defaultSetting
  = Normal duotonePalette ->
  getColorsFromDuotonePreset (VStr ("var:preset|duotone|" ++ slug))
    duotonePalette
  = Normal (field "colors" p).
Proof.
  intros Hc Hn Hf H.
  destruct (merged_palette _ _ _ _ _ _ _ Hc H) as (others & ->).
  destruct (find_split _ _ _ Hf) as (before & after & -> & Hp & Hb).
  rewrite <- app_assoc. cbn [app].
  rewrite forallb_app in Hn. apply andb_prop in Hn as [Hnb Hnp].
  cbn [forallb] in Hnp. apply andb_prop in Hnp as [Hnp _].
  apply getColorsFromDuotonePreset_at; [|now destruct (is_nullish p)|exact Hp].
  apply forallb_forall. intros q Hq.
  rewrite forallb_forall in Hnb, Hb. now rewrite (Hnb q Hq), (Hb q Hq).
Qed.

End Tiers.

(** X8.  [useMultiOriginPresets] returns the custom presets, then the theme
    presets, then the default presets unless the default setting is falsy, in
    one new array; a tier whose setting is falsy counts as empty.  It throws
    exactly when a tier it spreads is truthy and neither an array nor a
    string; the default tier is not spread, and cannot make it throw, when the
    default setting is falsy. *)
Theorem useMultiOriginPresets_merges (useSetting : string -> value)
  (fresh : loc) (presetSetting defaultSetting : string) :
  useMultiOriginPresets useSetting fresh presetSetting defaultSetting
  = let custom := useSetting (presetSetting ++ ".custom") in
    let theme := useSetting (presetSetting ++ ".theme") in
    let default := useSetting (presetSetting ++ ".default") in
    let enabled := truthy (useSetting defaultSetting) in
    if tier_ok custom && tier_ok theme && (negb enabled || tier_ok default)
    then Normal (VArr fresh (tier_elements custom ++ tier_elements theme
                             ++ (if enabled then tier_elements default
                                 else []))%list)
    else Throw_TypeError.
Proof.
  unfold useMultiOriginPresets. cbv zeta. rewrite !spread_tier.
  destruct (tier_ok (useSetting (presetSetting ++ ".custom"))); [|reflexivity].
  destruct (tier_ok (useSetting (presetSetting ++ ".theme")));
    cbn [bind andb]; [|reflexivity].
  destruct (truthy (useSetting defaultSetting)); cbn [negb orb].
  - rewrite spread_tier.
    now destruct (tier_ok (useSetting (presetSetting ++ ".default"))).
  - reflexivity.
Qed.

(** X9.  A custom preset shadows the theme and default presets of its slug:
    when the custom tier is an array without [undefined] or [null] entries
    and holds a preset with the slug, the reference to that slug resolves, on
    the palette [useMultiOriginPresets] returns, to the colours of the first
    such custom preset, whatever the other two tiers hold. *)
Theorem custom_preset_shadows (useSetting : string -> value) (fresh lc : loc)
  (presetSetting defaultSetting slug : string) (custom : list value)
  (p duotonePalette : value) :
  useSetting (presetSetting ++ ".custom") = VArr lc custom ->
  forallb (fun q => negb (is_nullish q)) custom = true ->
  find (has_slug slug) custom = Some p ->
  useMultiOriginPresets useSetting fresh presetSetting defaultSetting
  = Normal duotonePalette ->
  getColorsFromDuotonePreset (VStr ("var:preset|duotone|" ++ slug))
    duotonePalette
  = Normal (field "colors" p).
Proof. apply custom_preset_resolves. Qed.

Lemma custom_preset_shadows_witness :
  getColorsFromDuotonePreset (VStr ("var:preset|duotone|" ++ "grayscale"))
    (VArr 80 [Samples.grayscale; Samples.theme_dark; Samples.default_dark;
              Samples.blue])
  = Normal (field "colors" Samples.grayscale).
Proof.
  exact (custom_preset_shadows Settings.store 80 50 "color.duotone"
           "color.defaultDuotone" "grayscale" [Samples.grayscale]
           Samples.grayscale _ eq_refl eq_refl eq_refl eq_refl).
Defined.

(** X10.  The panel is hidden, and the resolver is not called whatever the
    block's style, when no duotone preset is on offer and custom duotone is
    off: either the setting [color.customDuotone] is falsy, or there is no
    colour preset and [color.custom] is falsy.  Default presets switched off
    by [color.defaultDuotone] are not on offer. *)
Theorem DuotonePanel_hooks_hidden (useSetting : string -> value) (fresh : loc)
  (colorPalette attributes : value) :
  useMultiOriginPresets useSetting fresh "color.duotone" "color.defaultDuotone"
  = Normal (VArr fresh []) ->
  useMultiOriginPresets useSetting (S fresh) "color.palette"
    "color.defaultPalette" = Normal colorPalette ->
  truthy (useSetting "color.customDuotone") = false
  \/ (length_is_zero colorPalette = true
      /\ truthy (useSetting "color.custom") = false) ->
  DuotonePanel_hooks useSetting fresh attributes = ([], Normal None).
Proof.
  intros Hd Hc Hoff. unfold DuotonePanel_hooks. rewrite Hd.
  unfold lift at 1. cbn [tbind]. rewrite Hc. unfold lift at 1. cbn [tbind].
  cbv zeta. rewrite DuotonePanel_reads. cbv zeta. cbn [length_is_zero andb].
  destruct Hoff as [-> | [-> ->]]; cbn [negb orb andb];
    rewrite ?Bool.orb_true_r; reflexivity.
Qed.

Lemma DuotonePanel_hooks_hidden_witness :
  DuotonePanel_hooks Settings.store_bare 90 Samples.unset_attributes
  = ([], Normal None).
Proof.
  exact (DuotonePanel_hooks_hidden Settings.store_bare 90 (VArr 91 [])
           Samples.unset_attributes eq_refl eq_refl (or_introl eq_refl)).
Defined.

(** ** The styles component *)

Section Styles.

Lemma not_unset (slug : string) :
  strict_eq (VStr ("var:preset|duotone|" ++ slug)) (VStr "unset") = false.
Proof. reflexivity. Qed.

Lemma nonempty_false (s : string) : nonempty s = false -> s = "".
Proof. destruct s; [reflexivity | discriminate]. Qed.

Lemma split_no_separator (c : ascii) (s : string) :
  contains c s = false -> split c s = [s].
Proof.
  induction s as [|d rest IH]; [reflexivity|].
  cbn [contains split]. intros H. apply Bool.orb_false_iff in H as [Hd Hrest].
  now rewrite Hd, (IH Hrest).
Qed.

Lemma trim_dot_nonempty (id : string) : nonempty (trim ("." ++ id)) = true.
Proof.
  assert (W : is_white_space "."%char = false) by reflexivity.
  unfold trim. cbn [append trimStart]. rewrite W. cbn [trimEnd].
  now rewrite W.
Qed.

Lemma pair_selectors_scoped (outer inner : string) :
  nonempty (trim outer) = true ->
  pair_selectors outer inner = [scoped outer inner].
Proof.
  intros H. unfold pair_selectors, inner_step, scoped, push. rewrite H.
  destruct (nonempty (trim inner)) eqn:E; cbn [andb snd app]; [reflexivity|].
  now rewrite (nonempty_false _ E).
Qed.

Lemma flat_map_singletons {A B} (f : A -> list B) (g : A -> B) (l : list A) :
  (forall x, In x l -> f x = [g x]) -> flat_map f l = map g l.
Proof.
  induction l as [|x rest IH]; intros H; [reflexivity|].
  cbn [flat_map map]. rewrite (H x (or_introl eq_refl)), IH; [reflexivity|].
  intros y Hy. apply H. now right.
Qed.

Lemma computeScopedDuotoneSelectors_flat (scopeList selectorList : string) :
  computeScopedDuotoneSelectors scopeList selectorList
  = join ","
      (flat_map (fun outer => flat_map (pair_selectors outer)
                                (split "," selectorList))
         (split "," scopeList)).
Proof. unfold computeScopedDuotoneSelectors. now rewrite outer_loop. Qed.

Lemma selectorsGroup_single_scope (id selectors : string) :
  contains "," id = false ->
  selectorsGroup id selectors
  = join "," (map (scoped ("." ++ id)) (split "," selectors)).
Proof.
  intros H. unfold selectorsGroup.
  rewrite computeScopedDuotoneSelectors_flat.
  rewrite (split_no_separator "," ("." ++ id)) by exact H.
  cbn [flat_map]. rewrite app_nil_r. f_equal.
  apply flat_map_singletons. intros inner _.
  apply pair_selectors_scoped, trim_dot_nonempty.
Qed.

End Styles.

(** X11.  On a preset reference, with a container and a palette array without
    [undefined] or [null] entries, [BlockDuotoneStyles] calls the resolver
    once and renders [InlineDuotone] with the colours of the first preset of
    that slug; when the palette has no preset of that slug it still renders,
    with [undefined] colours. *)
Theorem BlockDuotoneStyles_reference (lp : loc) (entries : list value)
  (element : value) (duotoneSupportSelectors id slug : string) :
  truthy element = true ->
  forallb (fun entry => negb (is_nullish entry)) entries = true ->
  BlockDuotoneStyles (VArr lp entries) element duotoneSupportSelectors
    (VStr ("var:preset|duotone|" ++ slug)) id
  = ([Call_getColorsFromDuotonePreset (VStr ("var:preset|duotone|" ++ slug))
        (VArr lp entries)],
     Normal (Some (InlineDuotone (selectorsGroup id duotoneSupportSelectors) id
                     (match find (has_slug slug) entries with
                      | Some p => field "colors" p
                      | None => VUndefined
                      end)))).
Proof.
  intros He Hn. unfold BlockDuotoneStyles.
  rewrite He, reference_truthy, not_unset. cbn [negb orb isArray andb].
  unfold invoke_getColorsFromDuotonePreset.
  rewrite getColorsFromDuotonePreset_array by (exact Hn || reflexivity).
  now rewrite find_referred_by.
Qed.

Lemma BlockDuotoneStyles_reference_witness :
  BlockDuotoneStyles (VArr 0 [Samples.grayscale; Samples.blue])
    Samples.container "img"
    (VStr ("var:preset|duotone|" ++ "retired")) "wp-duotone-7"
  = ([Call_getColorsFromDuotonePreset
        (VStr ("var:preset|duotone|" ++ "retired"))
        (VArr 0 [Samples.grayscale; Samples.blue])],
     Normal (Some (InlineDuotone (selectorsGroup "wp-duotone-7" "img")
                     "wp-duotone-7"
                     (match find (has_slug "retired")
                              [Samples.grayscale; Samples.blue] with
                      | Some p => field "colors" p
                      | None => VUndefined
                      end)))).
Proof.
  exact (BlockDuotoneStyles_reference 0 [Samples.grayscale; Samples.blue]
           Samples.container "img" "wp-duotone-7" "retired" eq_refl eq_refl).
Defined.

(** X12.  [BlockDuotoneStyles] calls the resolver at most once, on the style
    and the palette it was given, and exactly when there is a container and
    the style is truthy, not an array and not the sentinel "unset". *)
Theorem BlockDuotoneStyles_calls (duotonePalette element duotoneStyle : value)
  (duotoneSupportSelectors id : string) :
  fst (BlockDuotoneStyles duotonePalette element duotoneSupportSelectors
         duotoneStyle id)
  = if truthy element && truthy duotoneStyle
       && negb (isArray duotoneStyle)
       && negb (strict_eq duotoneStyle (VStr "unset"))
    then [Call_getColorsFromDuotonePreset duotoneStyle duotonePalette]
    else [].
Proof.
  unfold BlockDuotoneStyles.
  destruct (truthy element), (truthy duotoneStyle); cbn [negb orb andb];
    try reflexivity.
  destruct (negb (isArray duotoneStyle)
            && negb (strict_eq duotoneStyle (VStr "unset")))%bool;
    [|reflexivity].
  unfold invoke_getColorsFromDuotonePreset.
  now destruct (getColorsFromDuotonePreset duotoneStyle duotonePalette).
Qed.

(** X13.  A supported block whose duotone style is the sentinel "unset":
    [withDuotoneStyles] makes no resolver call and renders the unset
    stylesheet; when the instance id renders without a comma, its selector
    is, for each comma-separated piece of the block's duotone selectors in
    order, the editor wrapper followed by [.wp-duotone-<instance id>] and the
    trimmed piece, joined by commas (a piece that trims to nothing gives the
    bare wrapper prefix). *)
Theorem withDuotoneStyles_unset (duotoneSupport instanceId : value)
  (duotonePalette element props : value) (duotoneSupportSelectors : string) :
  is_nullish props = false ->
  field "duotone" (field "color" (field "style" (field "attributes" props)))
  = VStr "unset" ->
  truthy duotoneSupport = true -> truthy element = true ->
  contains "," (to_string instanceId) = false ->
  withDuotoneStyles duotoneSupport instanceId duotonePalette element
    duotoneSupportSelectors props
  = ([], Normal
           (Some (DuotoneUnsetStylesheet
                    (join ","
                       (map (scoped (".wp-duotone-" ++ to_string instanceId))
                          (split "," duotoneSupportSelectors)))))).
Proof.
  intros Hp Hs Hsup Hel Hid. unfold withDuotoneStyles.
  rewrite get_field by exact Hp. unfold lift at 1. cbn [tbind].
  rewrite opt_get_field. cbn [bind]. rewrite opt_get_field. cbn [bind].
  rewrite opt_get_field. cbn [bind]. rewrite opt_get_field, Hs.
  unfold lift. cbn [tbind]. rewrite Hsup. cbn [truthy String.eqb negb andb].
  rewrite BlockDuotoneStyles_unset by exact Hel. cbn [app].
  rewrite selectorsGroup_single_scope by exact Hid. reflexivity.
Qed.

Lemma withDuotoneStyles_unset_witness :
  withDuotoneStyles (VBool true) (VNum "7")
    (VArr 0 [Samples.grayscale; Samples.blue]) Samples.container
    "img, .wp-block-cover__image-background"
    (VObj 95 [("name", VStr "core/image");
              ("attributes", Samples.unset_attributes)])
  = ([], Normal
           (Some (DuotoneUnsetStylesheet
                    (join ","
                       (map (scoped (".wp-duotone-" ++ to_string (VNum "7")))
                          (split "," "img, .wp-block-cover__image-background")))))).
Proof.
  exact (withDuotoneStyles_unset (VBool true) (VNum "7")
           (VArr 0 [Samples.grayscale; Samples.blue]) Samples.container
           (VObj 95 [("name", VStr "core/image");
                     ("attributes", Samples.unset_attributes)])
           "img, .wp-block-cover__image-background"
           eq_refl eq_refl eq_refl eq_refl eq_refl).
Defined.

(** ** Scoped selectors in general *)

Section ScopedSelectors.

Lemma pair_selectors_trim_both (outer inner : string) :
  pair_selectors outer inner = pair_selectors (trim outer) (trim inner).
Proof.
  unfold pair_selectors, inner_step. now rewrite !trim_idempotent.
Qed.




Lemma flat_map_on_map {A B C} (f : B -> list C) (g : A -> B) (l : list A) :
  flat_map f (map g l) = flat_map (fun x => f (g x)) l.
Proof.
  induction l as [|x rest IH]; [reflexivity|].
  cbn [map flat_map]. now rewrite IH.
Qed.

Lemma scoped_pairs_trimmed (scopes selectors : list string) :
  flat_map (fun outer => flat_map (pair_selectors outer) selectors) scopes
  = flat_map (fun outer => flat_map (pair_selectors outer)
                             (map trim selectors))
      (map trim scopes).
Proof.
  rewrite flat_map_on_map. apply flat_map_ext. intros outer.
  rewrite flat_map_on_map. apply flat_map_ext. intros inner.
  apply pair_selectors_trim_both.
Qed.

End ScopedSelectors.

(** X14.  For a block instance whose id holds no comma, [selectorsGroup] has
    one selector for each comma-separated piece of the block's duotone
    selectors, in order: the editor wrapper, then ['.' + id] and the piece,
    both trimmed, with no space between; a piece that trims to nothing gives
    the bare wrapper prefix. *)
Theorem selectorsGroup_one_scope (id duotoneSupportSelectors : string) :
  contains "," id = false ->
  selectorsGroup id duotoneSupportSelectors
  = join "," (map (scoped ("." ++ id)) (split "," duotoneSupportSelectors)).
Proof. apply selectorsGroup_single_scope. Qed.

Lemma selectorsGroup_one_scope_witness :
  selectorsGroup "wp-duotone-12" " img , .cover > video "
  = join "," (map (scoped ("." ++ "wp-duotone-12"))
                (split "," " img , .cover > video ")).
Proof.
  exact (selectorsGroup_one_scope "wp-duotone-12" " img , .cover > video "
           eq_refl).
Defined.


(** X16.  White space around the pieces does not count: two scope strings,
    and two selector lists, whose comma-separated pieces are the same once
    trimmed give the same result. *)
Theorem computeScopedDuotoneSelectors_padding
  (scopeList scopeList' selectorList selectorList' : string) :
  map trim (split "," scopeList) = map trim (split "," scopeList') ->
  map trim (split "," selectorList) = map trim (split "," selectorList') ->
  computeScopedDuotoneSelectors scopeList selectorList
  = computeScopedDuotoneSelectors scopeList' selectorList'.
Proof.
  intros Hs Hl. rewrite !computeScopedDuotoneSelectors_flat.
  rewrite (scoped_pairs_trimmed (split "," scopeList)),
    (scoped_pairs_trimmed (split "," scopeList')).
  now rewrite Hs, Hl.
Qed.

Lemma computeScopedDuotoneSelectors_padding_witness :
  computeScopedDuotoneSelectors " .a , .b" "img,  video "
  = computeScopedDuotoneSelectors ".a,.b " " img ,video".
Proof.
  exact (computeScopedDuotoneSelectors_padding " .a , .b" ".a,.b "
           "img,  video " " img ,video" eq_refl eq_refl).
Defined.

(** X17.  When every piece of the scope string and of the selector list is
    non-empty once trimmed, the result has one selector for every pair, in
    scope-major order: the wrapper prefix, then the trimmed scope and the
    trimmed selector with no space between. *)
Theorem computeScopedDuotoneSelectors_all_pairs (scopeList selectorList : string) :
  forallb (fun s => nonempty (trim s)) (split "," scopeList) = true ->
  forallb (fun s => nonempty (trim s)) (split "," selectorList) = true ->
  computeScopedDuotoneSelectors scopeList selectorList
  = join ","
      (map (fun p => ".editor-styles-wrapper " ++ trim (fst p) ++ trim (snd p))
         (list_prod (split "," scopeList) (split "," selectorList))).
Proof.
  intros Hs Hl. rewrite computeScopedDuotoneSelectors_flat.
  rewrite <- flat_map_list_prod. f_equal.
  apply flat_map_singletons. intros [outer inner] Hin.
  apply in_prod_iff in Hin as [Ho Hi].
  rewrite forallb_forall in Hs, Hl.
  exact (pair_selectors_both outer inner (Hs _ Ho) (Hl _ Hi)).
Qed.

Lemma computeScopedDuotoneSelectors_all_pairs_witness :
  computeScopedDuotoneSelectors ".wp-duotone-3" "img, .cover video"
  = join ","
      (map (fun p => ".editor-styles-wrapper " ++ trim (fst p) ++ trim (snd p))
         (list_prod (split "," ".wp-duotone-3") (split "," "img, .cover video"))).
Proof.
  exact (computeScopedDuotoneSelectors_all_pairs ".wp-duotone-3"
           "img, .cover video" eq_refl eq_refl).
Defined.

(** ** From the settings to the control *)

(** X18.  End to end: for a block that supports duotone and is not content
    locked, whose style refers to a slug that a preset of the custom tier
    has, [withDuotoneControls] calls the resolver once, on the merged
    palette, and hands the control the colours of the first custom preset of
    that slug, whatever the theme and default tiers hold and whether or not
    custom duotone is enabled. *)
Theorem withDuotoneControls_custom_preset
  (hasDuotoneSupport isContentLocked props p duotonePalette colorPalette : value)
  (useSetting : string -> value) (fresh lc : loc) (custom : list value)
  (slug : string) :
  is_nullish props = false ->
  truthy hasDuotoneSupport = true -> truthy isContentLocked = false ->
  useSetting "color.duotone.custom" = VArr lc custom ->
  forallb (fun q => negb (is_nullish q)) custom = true ->
  find (has_slug slug) custom = Some p ->
  useMultiOriginPresets useSetting fresh "color.duotone" "color.defaultDuotone"
  = Normal duotonePalette ->
  useMultiOriginPresets useSetting (S fresh) "color.palette"
    "color.defaultPalette" = Normal colorPalette ->
  field "duotone" (field "color" (field "style" (property "attributes" props)))
  = VStr ("var:preset|duotone|" ++ slug) ->
  withDuotoneControls hasDuotoneSupport isContentLocked useSetting fresh props
  = ([Call_getColorsFromDuotonePreset (VStr ("var:preset|duotone|" ++ slug))
        duotonePalette],
     Normal (Some (field "colors" p))).
Proof.
  intros Hp Hsup Hlock Hc Hn Hf Hd Hcp Hs. unfold withDuotoneControls.
  rewrite get_field by exact Hp. unfold lift at 1. cbn [tbind].
  rewrite Hsup, Hlock. cbn [negb andb]. cbv zeta.
  fold (property "attributes" props).
  unfold DuotonePanel_hooks. rewrite Hd. unfold lift at 1. cbn [tbind].
  rewrite Hcp. unfold lift at 1. cbn [tbind]. cbv zeta.
  rewrite DuotonePanel_reads, Hs. cbv zeta.
  pose proof (custom_preset_resolves useSetting fresh lc "color.duotone"
                "color.defaultDuotone" slug custom p duotonePalette
                Hc Hn Hf Hd) as Hr.
  destruct (merged_palette useSetting fresh lc "color.duotone"
              "color.defaultDuotone" custom duotonePalette Hc Hd)
    as (others & ->).
  destruct (find_split _ _ _ Hf) as (before & after & -> & _ & _).
  assert (Hshown : length_is_zero
                     (VArr fresh ((before ++ p :: after) ++ others)%list)
                   = false)
    by (now destruct before).
  rewrite Hshown. cbn [andb isArray negb].
  unfold invoke_getColorsFromDuotonePreset. rewrite Hr. reflexivity.
Qed.

Lemma withDuotoneControls_custom_preset_witness :
  withDuotoneControls (VBool true) VUndefined Settings.store 100
    (VObj 96 [("name", VStr "core/image");
              ("attributes",
               VObj 97 [("style",
                         VObj 98 [("color",
                                   VObj 99 [("duotone",
                                             VStr ("var:preset|duotone|"
                                                   ++ "grayscale"))])])])])
  = ([Call_getColorsFromDuotonePreset
        (VStr ("var:preset|duotone|" ++ "grayscale"))
        (VArr 100 [Samples.grayscale; Samples.theme_dark;
                   Samples.default_dark; Samples.blue])],
     Normal (Some (field "colors" Samples.grayscale))).
Proof.
  exact (withDuotoneControls_custom_preset (VBool true) VUndefined
           (VObj 96 [("name", VStr "core/image");
                     ("attributes",
                      VObj 97 [("style",
                                VObj 98 [("color",
                                          VObj 99 [("duotone",
                                                    VStr ("var:preset|duotone|"
                                                          ++ "grayscale"))])])])])
           Samples.grayscale
           (VArr 100 [Samples.grayscale; Samples.theme_dark;
                      Samples.default_dark; Samples.blue])
           (VArr 101 [])
           Settings.store 100 50 [Samples.grayscale] "grayscale"
           eq_refl eq_refl eq_refl eq_refl eq_refl eq_refl eq_refl eq_refl
           eq_refl).
Defined.
